(** * job_pluse: the résumé page (apps/web/src/app/resumes/page.tsx)

    A shallow embedding of the résumé assessment code of the page:
    [generateAnalysisResult] with its two inner functions
    [getWritingTips] and [getRoleKeywords], the handlers
    [handleStartAnalysis] and [handleDeleteResume], [getCurrentAnalysis],
    and the two fragments of the render function that gate the start
    button and select the progress label.

    Conventions.
    - A JavaScript string is a [string] holding its UTF-8 bytes; the
      literals of the page (Korean text, emoji) are written as they are in
      the source.  A double quote inside a literal is spelled [dq].
    - A JavaScript number that the page only uses as an integer is a [Z].
    - [Math.random] reads an explicit random source that is threaded
      through the code in evaluation order ([Rand]).
    - The React state of the page is the record [Page]; a handler is a
      function on it.  Timers are made explicit: the interval callback is
      [tick], the code after each [await] is a step of its own. *)

From Stdlib Require Import ZArith String Ascii List Bool Sorted Lia DecimalString.
From stdpp Require Import base option list gmap strings.

Open Scope string_scope.
Open Scope list_scope.
Open Scope Z_scope.

(* ===================================================================== *)
(** ** JavaScript built-ins used by the page *)
(* ===================================================================== *)

Module JS.

(** The double quote character, and a quoted string. *)
Definition dq : string := String (ascii_of_nat 34) EmptyString.
Definition quoted (s : string) : string := dq +:+ s +:+ dq.

(** One byte of [String.prototype.toLowerCase]: the letters A-Z go to
    a-z.  Bytes of multi-byte UTF-8 sequences (all at least 128) are
    kept, so Hangul syllables, which have no case, are unchanged.
    Cased letters outside Basic Latin are outside this model. *)
Definition lower_byte (c : ascii) : ascii :=
  let n := nat_of_ascii c in
  if ((65 <=? n)%nat && (n <=? 90)%nat)%bool then ascii_of_nat (n + 32) else c.

Fixpoint toLowerCase (s : string) : string :=
  match s with
  | EmptyString => EmptyString
  | String c s' => String (lower_byte c) (toLowerCase s')
  end.

(** [s.includes(needle)]: [needle] occurs in [s] at some position.  On
    well-formed text an occurrence of the UTF-8 bytes of [needle] is an
    occurrence of its characters, UTF-8 being self-synchronising. *)
Fixpoint includes (s needle : string) : bool :=
  String.prefix needle s ||
  match s with
  | EmptyString => false
  | String _ s' => includes s' needle
  end.

(** [xs.slice(start, end)] for [0 <= start] and [0 <= end]: the elements
    at the indices [start], ..., [end - 1] that exist. *)
Definition slice {A} (xs : list A) (start end_ : nat) : list A :=
  take (end_ - start) (drop start xs).

(** [xs.join(sep)] on an array of strings. *)
Fixpoint join (xs : list string) (sep : string) : string :=
  match xs with
  | [] => EmptyString
  | [x] => x
  | x :: xs' => x +:+ sep +:+ join xs' sep
  end.

(** [xs.find(pred)]: the first element that satisfies [pred]. *)
Definition find {A} (pred : A -> bool) (xs : list A) : option A :=
  List.find pred xs.

End JS.

(* ===================================================================== *)
(** ** The random source *)
(* ===================================================================== *)

(** [Math.random()] returns a double [k / 2^53] with [0 <= k < 2^53].  The
    source of randomness is the sequence of the numerators of the calls
    still to come; a computation that draws from it is a state
    transformer. *)
Definition RandomSource : Type := nat -> Z.

Definition Rand (A : Type) : Type := RandomSource -> A * RandomSource.

Definition ret {A} (a : A) : Rand A := fun src => (a, src).

Definition bind {A B} (m : Rand A) (f : A -> Rand B) : Rand B :=
  fun src => let '(a, src') := m src in f a src'.

Notation "'draw' x 'from' m 'in' k" := (bind m (fun x => k))
  (at level 10, x name, m at level 100, k at level 200).

Definition two53 : Z := 2 ^ 53.

(** The numerator of the next [Math.random()]. *)
Definition Math_random : Rand Z :=
  fun src => (src 0%nat mod two53, fun i => src (S i)).

(** [Math.floor(r * n)] for [r = k / 2^53] and a positive integer [n],
    the product taken exactly.  The page only uses the result, which
    ranges over [0], ..., [n - 1]. *)
Definition floor_times (k n : Z) : Z := (k * n) / two53.

(** The source whose calls return [ks] in turn, and 0 afterwards. *)
Definition source_of (ks : list Z) : RandomSource :=
  fun i => nth i ks 0.

(* ===================================================================== *)
(** ** Data model *)
(* ===================================================================== *)

(** [interface Resume]; [score: number | null] is an option. *)
Record Resume : Type := mkResume {
  id : string;
  filename : string;
  targetRole : string;
  score : option Z;
  hasAnalysis : bool;
  createdAt : string;
  fileSize : option string;
}.

Inductive Status : Type := good | needs_improvement.

Record Section_ : Type := mkSection {
  sec_score : Z;
  status : Status;
  feedback : string;
}.

Record Sections : Type := mkSections {
  ats_friendly : Section_;
  impact_metrics : Section_;
  keyword_match : Section_;
  readability : Section_;
  format : Section_;
}.

Record Tip : Type := mkTip {
  category : string;
  tip : string;
  example : string;
  reason : string;
}.

(** [typeof mockAnalysis]. *)
Record Analysis : Type := mkAnalysis {
  overall_score : Z;
  sections : Sections;
  writingTips : list Tip;
}.

(* ===================================================================== *)
(** ** generateAnalysisResult *)
(* ===================================================================== *)

(** The five detection flags computed at the head of
    [generateAnalysisResult] from the lower-cased file name and target
    role. *)
Record RoleFlags : Type := mkFlags {
  isFrontend : bool;
  isBackend : bool;
  isFullstack : bool;
  isData : bool;
  isDevOps : bool;
}.

Definition detectFlags (resume : Resume) : RoleFlags :=
  let filename := JS.toLowerCase resume.(filename) in
  let targetRole := JS.toLowerCase resume.(targetRole) in
  {| isFrontend :=
       JS.includes filename "프론트" || JS.includes filename "front" ||
       JS.includes targetRole "프론트" || JS.includes targetRole "front" ||
       JS.includes targetRole "react";
     isBackend :=
       JS.includes filename "백엔드" || JS.includes filename "back" ||
       JS.includes targetRole "백엔드" || JS.includes targetRole "back" ||
       JS.includes targetRole "서버";
     isFullstack :=
       JS.includes filename "풀스택" || JS.includes filename "full" ||
       JS.includes targetRole "풀스택" || JS.includes targetRole "full";
     isData :=
       JS.includes filename "데이터" || JS.includes filename "data" ||
       JS.includes targetRole "데이터" || JS.includes targetRole "data" ||
       JS.includes targetRole "분석";
     isDevOps :=
       JS.includes targetRole "devops" || JS.includes targetRole "운영" ||
       JS.includes targetRole "인프라" |}.

(** The tip tables of [getWritingTips], one per branch.  Three of them
    interpolate [resume.targetRole] (not lower-cased). *)
Definition frontendTips (role : string) : list Tip :=
  [ {| category := "기술 스택 작성법";
       tip := "React, TypeScript, Next.js 등 구체적인 기술명을 나열하세요";
       example := JS.quoted "웹 개발 경험" +:+ " → " +:+
                  JS.quoted "React, TypeScript, Next.js를 활용한 SPA 개발 3년 경력";
       reason := role +:+ " 직무에서 기술 스택 명시는 필수입니다" |};
    {| category := "성과 수치화";
       tip := "성능 개선, 사용자 지표 등을 수치로 표현하세요";
       example := JS.quoted "UI 개선" +:+ " → " +:+
                  JS.quoted "Core Web Vitals LCP 2.5s→1.2s 개선, 이탈률 25% 감소";
       reason := "수치가 있으면 임팩트가 명확해집니다" |};
    {| category := "프로젝트 규모";
       tip := "DAU, MAU, 트래픽 등 서비스 규모를 명시하세요";
       example := JS.quoted "웹 서비스 개발" +:+ " → " +:+
                  JS.quoted "월 10만 DAU 서비스의 프론트엔드 설계 및 개발";
       reason := "규모를 언급하면 경험의 깊이를 보여줄 수 있습니다" |} ].

Definition backendTips (role : string) : list Tip :=
  [ {| category := "기술 스택 작성법";
       tip := "언어, 프레임워크, DB, 인프라를 구체적으로 나열하세요";
       example := JS.quoted "서버 개발" +:+ " → " +:+
                  JS.quoted "Node.js, PostgreSQL, Redis, Docker 기반 백엔드 시스템 구축";
       reason := role +:+ " 직무에서 기술 스택 명시는 필수입니다" |};
    {| category := "성능 개선 성과";
       tip := "API 응답시간, 처리량 등 성능 지표를 수치로 표현하세요";
       example := JS.quoted "API 개발" +:+ " → " +:+
                  JS.quoted "API 응답시간 200ms→50ms 개선 (75% 향상)";
       reason := "백엔드는 성능 수치가 핵심 역량 지표입니다" |};
    {| category := "트래픽/데이터 규모";
       tip := "처리한 데이터나 트래픽 규모를 언급하세요";
       example := JS.quoted "DB 관리" +:+ " → " +:+
                  JS.quoted "일 1억건 트래픽을 처리하는 DB 쿼리 최적화";
       reason := "규모를 언급하면 대용량 시스템 경험을 증명할 수 있습니다" |} ].

Definition fullstackTips : list Tip :=
  [ {| category := "풀스택 역량 표현";
       tip := "프론트엔드, 백엔드 기술을 모두 명시하세요";
       example := JS.quoted "웹 개발" +:+ " → " +:+
                  JS.quoted "React + Node.js + PostgreSQL 기반 풀스택 서비스 개발";
       reason := "풀스택은 양쪽 기술 스택을 모두 보여줘야 합니다" |};
    {| category := "종합적 성과";
       tip := "서비스 전체를 담당한 경험을 강조하세요";
       example := JS.quoted "서비스 개발" +:+ " → " +:+
                  JS.quoted "0→1 서비스 구축부터 MAU 5만 달성까지 전 과정 주도";
       reason := "풀스택의 가치는 전체를 볼 수 있다는 점입니다" |};
    {| category := "1인 개발 역량";
       tip := "독립적으로 완수한 프로젝트를 강조하세요";
       example := JS.quoted "개발 담당" +:+ " → " +:+
                  JS.quoted "FE/BE/인프라를 아우르는 1인 개발로 MVP 2주 내 출시";
       reason := "자기주도적 개발 능력을 보여줄 수 있습니다" |} ].

Definition dataTips : list Tip :=
  [ {| category := "분석 도구 명시";
       tip := "사용한 분석 도구와 언어를 구체적으로 나열하세요";
       example := JS.quoted "데이터 분석" +:+ " → " +:+
                  JS.quoted "Python, SQL, Pandas, Scikit-learn으로 ML 모델 개발";
       reason := "데이터 직무는 도구 숙련도가 중요합니다" |};
    {| category := "비즈니스 임팩트";
       tip := "분석 결과가 비즈니스에 미친 영향을 수치로 표현하세요";
       example := JS.quoted "분석 업무" +:+ " → " +:+
                  JS.quoted "이탈 예측 모델로 마케팅 비용 30% 절감에 기여";
       reason := "분석의 가치는 비즈니스 성과로 증명됩니다" |};
    {| category := "데이터 규모";
       tip := "처리한 데이터의 규모를 언급하세요";
       example := JS.quoted "ETL 구축" +:+ " → " +:+
                  JS.quoted "일 500GB 데이터 처리하는 파이프라인 설계 및 자동화";
       reason := "대용량 데이터 처리 경험을 보여줄 수 있습니다" |} ].

Definition otherTips (role : string) : list Tip :=
  [ {| category := "성과 수치화";
       tip := "모든 성과에 수치를 붙여보세요";
       example := JS.quoted "프로젝트 수행" +:+ " → " +:+
                  JS.quoted "사용자 수 50% 증가에 기여한 핵심 기능 개발 리드";
       reason := "수치가 없는 성과는 임팩트가 약해 보입니다" |};
    {| category := "기술 스택 구체화";
       tip := role +:+ "에 필요한 핵심 기술을 구체적으로 나열하세요";
       example := JS.quoted "다양한 기술 활용" +:+ " → " +:+
                  JS.quoted "Python, SQL, Excel VBA 등 업무 자동화 도구 활용";
       reason := "구체적인 기술명이 키워드 매칭에 유리합니다" |};
    {| category := "경험 구체화";
       tip := "추상적인 표현 대신 구체적인 경험을 작성하세요";
       example := JS.quoted "열정적으로 일함" +:+ " → " +:+
                  JS.quoted "3년간 스타트업에서 0→1 제품 개발 3회 완수";
       reason := "구체적인 경험이 신뢰도를 높입니다" |} ].

(** [getWritingTips]: an if / else-if chain over four of the flags; the
    last branch serves every other résumé. *)
Definition getWritingTips (resume : Resume) (fl : RoleFlags) : list Tip :=
  if fl.(isFrontend) then frontendTips resume.(targetRole)
  else if fl.(isBackend) then backendTips resume.(targetRole)
  else if fl.(isFullstack) then fullstackTips
  else if fl.(isData) then dataTips
  else otherTips resume.(targetRole).

(** [getRoleKeywords]: a chain of early returns over the five flags. *)
Definition getRoleKeywords (fl : RoleFlags) : list string :=
  if fl.(isFrontend) then ["React"; "TypeScript"; "Next.js"; "CSS"; "JavaScript"; "HTML"]
  else if fl.(isBackend) then ["Node.js"; "Python"; "SQL"; "API"; "Docker"; "AWS"]
  else if fl.(isFullstack) then ["React"; "Node.js"; "TypeScript"; "PostgreSQL"; "Docker"]
  else if fl.(isData) then ["Python"; "SQL"; "Pandas"; "ML"; "데이터분석"; "Tableau"]
  else if fl.(isDevOps) then ["Docker"; "Kubernetes"; "AWS"; "CI/CD"; "Terraform"; "Linux"]
  else ["협업"; "문제해결"; "커뮤니케이션"; "기획"; "분석"].

(** The template literal of the [keyword_match] feedback. *)
Definition keywordFeedback (role : string) (keywords : list string) : string :=
  role +:+ " 직무와 관련된 핵심 키워드(" +:+
  JS.join (JS.slice keywords 0 3) ", " +:+
  ")가 포함되어 있습니다. " +:+
  JS.join (JS.slice keywords 3 5) ", " +:+
  " 키워드 추가를 권장합니다.".

(** [generateAnalysisResult].  The object literal is evaluated top to
    bottom, so [Math.random] is called for the base score, then for the
    [ats_friendly], [impact_metrics], [keyword_match], [readability] and
    [format] scores, in this order. *)
Definition generateAnalysisResult (resume : Resume) : Rand Analysis :=
  let fl := detectFlags resume in
  draw r0 from Math_random in
  let baseScore := 62 + floor_times r0 20 in
  let keywords := getRoleKeywords fl in
  draw r1 from Math_random in
  draw r2 from Math_random in
  draw r3 from Math_random in
  draw r4 from Math_random in
  draw r5 from Math_random in
  ret {|
    overall_score := baseScore;
    sections := {|
      ats_friendly := {|
        sec_score := Z.min 100 (baseScore + 8 + floor_times r1 10);
        status := good;
        feedback := "PDF 형식의 이력서로 ATS 시스템에서 파싱이 잘 됩니다. 표준화된 섹션 구분을 사용하세요." |};
      impact_metrics := {|
        sec_score := Z.min 100 (baseScore - 5 + floor_times r2 15);
        status := if (70 <? baseScore)%Z then good else needs_improvement;
        feedback :=
          if (70 <? baseScore)%Z
          then "성과가 수치와 함께 잘 표현되어 있습니다. 더 구체적인 비즈니스 임팩트를 추가하면 좋습니다."
          else "성과를 수치로 표현하세요. " +:+ JS.quoted "매출 증가" +:+ "보다 " +:+
               JS.quoted "매출 30% 증가" +:+ "가 훨씬 임팩트 있습니다." |};
      keyword_match := {|
        sec_score := Z.min 100 (baseScore + 5 + floor_times r3 12);
        status := good;
        feedback := keywordFeedback resume.(targetRole) keywords |};
      readability := {|
        sec_score := Z.min 100 (baseScore + floor_times r4 15);
        status := if (65 <? baseScore)%Z then good else needs_improvement;
        feedback :=
          if (65 <? baseScore)%Z
          then "문장이 간결하고 읽기 쉽게 작성되어 있습니다."
          else "문장을 더 간결하게 작성하세요. 한 문장에 핵심 정보 하나만 담는 것이 좋습니다." |};
      format := {|
        sec_score := Z.min 100 (baseScore + 10 + floor_times r5 8);
        status := good;
        feedback := "레이아웃이 깔끔하게 정돈되어 있습니다. 글머리 기호를 활용하면 가독성이 더 높아집니다." |};
    |};
    writingTips := getWritingTips resume fl;
  |}.

(* ===================================================================== *)
(** ** The state of the page and its handlers *)
(* ===================================================================== *)

(** The [useState] cells of [ResumesPage] that the analysis and the
    deletion read or write (the upload dialog has cells of its own, which
    these handlers never touch), and the lines written by
    [console.error]. *)
Record Page : Type := mkPage {
  resumes : list Resume;
  selectedResume : option string;
  isAnalyzing : bool;
  analysisProgress : Z;
  analysisResults : gmap string Analysis;
  console : list string;
}.

Definition setResumes (f : list Resume -> list Resume) (p : Page) : Page :=
  mkPage (f p.(resumes)) p.(selectedResume) p.(isAnalyzing)
         p.(analysisProgress) p.(analysisResults) p.(console).

Definition setSelectedResume (v : option string) (p : Page) : Page :=
  mkPage p.(resumes) v p.(isAnalyzing)
         p.(analysisProgress) p.(analysisResults) p.(console).

Definition setIsAnalyzing (v : bool) (p : Page) : Page :=
  mkPage p.(resumes) p.(selectedResume) v
         p.(analysisProgress) p.(analysisResults) p.(console).

Definition setAnalysisProgress (f : Z -> Z) (p : Page) : Page :=
  mkPage p.(resumes) p.(selectedResume) p.(isAnalyzing)
         (f p.(analysisProgress)) p.(analysisResults) p.(console).

Definition setAnalysisResults
    (f : gmap string Analysis -> gmap string Analysis) (p : Page) : Page :=
  mkPage p.(resumes) p.(selectedResume) p.(isAnalyzing)
         p.(analysisProgress) (f p.(analysisResults)) p.(console).

Definition console_error (line : string) (p : Page) : Page :=
  mkPage p.(resumes) p.(selectedResume) p.(isAnalyzing)
         p.(analysisProgress) p.(analysisResults) (p.(console) ++ [line])%list.

(** [selectedResume === id], with [selectedResume : string | null]. *)
Definition is_selected (p : Page) (rid : string) : bool :=
  match p.(selectedResume) with
  | Some s => String.eqb s rid
  | None => false
  end.

(** [x?.id || null]: an absent résumé and an empty id both give [null]. *)
Definition id_or_null (x : option Resume) : option string :=
  match x with
  | Some r => if String.eqb r.(id) EmptyString then None else Some r.(id)
  | None => None
  end.

(** [handleDeleteResume]; [confirmed] is the answer of [confirm(...)]. *)
Definition handleDeleteResume (confirmed : bool) (rid : string) (p : Page) : Page :=
  if confirmed then
    let p1 := setResumes (List.filter (fun r => negb (String.eqb r.(id) rid))) p in
    if is_selected p rid
    then setSelectedResume
           (id_or_null (JS.find (fun r => negb (String.eqb r.(id) rid)) p.(resumes))) p1
    else p1
  else p.

(** What one call of [handleStartAnalysis] holds in its closure: the
    argument, the [resumes] array of the render the handler belongs to,
    and whether its [progressInterval] is still set. *)
Record Run : Type := mkRun {
  run_resumeId : string;
  run_resumes : list Resume;
  progressInterval : bool;
}.

Definition clearInterval (r : Run) : Run :=
  mkRun r.(run_resumeId) r.(run_resumes) false.

(** [handleStartAnalysis], up to the first [await]. *)
Definition beginAnalysis (resumeId : string) (p : Page) : Page * Run :=
  let p1 := setIsAnalyzing true p in
  let p2 := setAnalysisProgress (fun _ => 0) p1 in
  (p2, mkRun resumeId p.(resumes) true).

(** One firing of the 400 ms interval.  [Math.random] is only called on
    the branch that advances the progress. *)
Definition tick (st : Page * Run) : Rand (Page * Run) :=
  let '(p, r) := st in
  if r.(progressInterval) then
    let prev := p.(analysisProgress) in
    if 95 <=? prev then ret (p, clearInterval r)
    else
      draw k from Math_random in
      ret (setAnalysisProgress (fun prev => prev + floor_times k 8 + 3) p, r)
  else ret (p, r).

(** The [finally] block. *)
Definition finallyBlock (p : Page) : Page :=
  setAnalysisProgress (fun _ => 0) (setIsAnalyzing false p).

(** What the code after the first [await] leaves to be done. *)
Inductive Pending : Type :=
  | AwaitPause   (* waiting for the 500 ms pause; [finally] still to run *)
  | Settled.     (* the handler has returned *)

(** The two state updates that publish a result: it is stored under the
    id, and the résumé with that id in the current list gets the flag
    and the score. *)
Definition publishResult (resumeId : string) (result : Analysis) (p : Page) : Page :=
  let p1 := setAnalysisResults (fun prev => <[ resumeId := result ]> prev) p in
  setResumes
    (map (fun x => if String.eqb x.(id) resumeId
                   then mkResume x.(id) x.(filename) x.(targetRole)
                          (Some result.(overall_score)) true
                          x.(createdAt) x.(fileSize)
                   else x)) p1.

(** The [catch] block (its [clearInterval] is on the run). *)
Definition catchBlock (p : Page) : Page :=
  console_error "Analysis error: Error: Resume not found" p.

(** The code between the first [await] (3500 ms) and the second one: the
    interval is cleared, the progress is set to 100 and the résumé is
    looked up in the captured array.  When it is missing, the thrown
    error is caught and logged and [finally] runs at once. *)
Definition afterDelay (st : Page * Run) : Rand (Page * Run * Pending) :=
  let '(p, r) := st in
  let r1 := clearInterval r in
  let p1 := setAnalysisProgress (fun _ => 100) p in
  match JS.find (fun x => String.eqb x.(id) r.(run_resumeId)) r.(run_resumes) with
  | None =>
      ret (finallyBlock (catchBlock p1), clearInterval r1, Settled)
  | Some targetResume =>
      draw result from generateAnalysisResult targetResume in
      ret (publishResult r.(run_resumeId) result p1, r1, AwaitPause)
  end.

(** The code after the second [await] (500 ms). *)
Definition afterPause (st : Page * Run) : Page * Run :=
  (finallyBlock (fst st), snd st).

(** The timers of one call: the interval fires every [intervalMs], the
    first [await] ends after [analysisDelayMs].  The interval fires at
    400, 800, ... ms, so [nominalTicks] firings come before the
    continuation; a late firing can only lower that number. *)
Definition intervalMs : Z := 400.
Definition analysisDelayMs : Z := 3500.
Definition nominalTicks : nat := Z.to_nat ((analysisDelayMs - 1) / intervalMs).

(** [n] firings of the interval; the pages they leave, oldest first. *)
Fixpoint ticks (n : nat) (st : Page * Run) : Rand (Page * Run * list Page) :=
  match n with
  | O => ret (st, [])
  | S n' =>
      draw st1 from tick st in
      draw rest from ticks n' st1 in
      ret (fst rest, (fst st1 :: snd rest)%list)
  end.

(** One whole call of [handleStartAnalysis] that runs alone, with [n]
    firings of the interval before the first [await] ends.  The result is
    the final page and the pages after each step: after the synchronous
    start, after each firing, after the code that follows the first
    [await], and (when the résumé was found) after the [finally] that
    follows the second. *)
Definition handleStartAnalysis (n : nat) (resumeId : string) (p : Page)
    : Rand (Page * list Page) :=
  let st0 := beginAnalysis resumeId p in
  draw t from ticks n st0 in
  let '(st1, ticked) := t in
  draw d from afterDelay st1 in
  let '(p2, r2, pending) := d in
  match pending with
  | Settled => ret (p2, (fst st0 :: ticked ++ [p2])%list)
  | AwaitPause =>
      let p3 := fst (afterPause (p2, r2)) in
      ret (p3, (fst st0 :: ticked ++ [p2; p3])%list)
  end.

(** The progress values shown while the page is analyzing. *)
Definition shownProgress (history : list Page) : list Z :=
  map analysisProgress (List.filter isAnalyzing history).

(* ===================================================================== *)
(** ** The report panel of the render function *)
(* ===================================================================== *)

(** [selectedResumeData]. *)
Definition selectedResumeData (p : Page) : option Resume :=
  JS.find (fun r => is_selected p r.(id)) p.(resumes).

(** The label under the progress bar: five [cond && 'text'] children. *)
Definition analysisStep (progress : Z) : string :=
  (if progress <? 20 then "📄 이력서 파싱 중..." else EmptyString) +:+
  (if (20 <=? progress) && (progress <? 40) then "🔍 ATS 호환성 검사 중..." else EmptyString) +:+
  (if (40 <=? progress) && (progress <? 60) then "📊 임팩트 분석 중..." else EmptyString) +:+
  (if (60 <=? progress) && (progress <? 80) then "🔑 키워드 매칭 분석 중..." else EmptyString) +:+
  (if 80 <=? progress then "✨ 개선 제안 생성 중..." else EmptyString).

(** What the report section shows: the report, the progress of a running
    analysis, the prompt whose button calls
    [handleStartAnalysis(selectedResumeData.id)], or the empty state. *)
Inductive Panel : Type :=
  | ShowReport
  | ShowProgress (width : Z) (step : string)
  | ShowPrompt (startFor : string)
  | ShowEmpty.

Definition reportSection (p : Page) : Panel :=
  match selectedResumeData p with
  | Some r =>
      if r.(hasAnalysis) then ShowReport
      else if p.(isAnalyzing)
           then ShowProgress p.(analysisProgress) (analysisStep p.(analysisProgress))
           else ShowPrompt r.(id)
  | None => ShowEmpty
  end.

(* ===================================================================== *)
(** ** Role categories *)
(* ===================================================================== *)

(** The six outcomes of the chain of [getRoleKeywords], which tests the
    flags in the order Frontend, Backend, Fullstack, Data, DevOps. *)
Inductive RoleCategory : Type :=
  | Frontend | Backend | Fullstack | Data | DevOps | General.

Definition categoryOf (fl : RoleFlags) : RoleCategory :=
  if fl.(isFrontend) then Frontend
  else if fl.(isBackend) then Backend
  else if fl.(isFullstack) then Fullstack
  else if fl.(isData) then Data
  else if fl.(isDevOps) then DevOps
  else General.

Definition classify (resume : Resume) : RoleCategory :=
  categoryOf (detectFlags resume).

(** The keyword list and the tips of each category, read off the branches
    of [getRoleKeywords] and [getWritingTips]. *)
Definition keywordsOf (c : RoleCategory) : list string :=
  match c with
  | Frontend => ["React"; "TypeScript"; "Next.js"; "CSS"; "JavaScript"; "HTML"]
  | Backend => ["Node.js"; "Python"; "SQL"; "API"; "Docker"; "AWS"]
  | Fullstack => ["React"; "Node.js"; "TypeScript"; "PostgreSQL"; "Docker"]
  | Data => ["Python"; "SQL"; "Pandas"; "ML"; "데이터분석"; "Tableau"]
  | DevOps => ["Docker"; "Kubernetes"; "AWS"; "CI/CD"; "Terraform"; "Linux"]
  | General => ["협업"; "문제해결"; "커뮤니케이션"; "기획"; "분석"]
  end.

Definition tipsOf (c : RoleCategory) (role : string) : list Tip :=
  match c with
  | Frontend => frontendTips role
  | Backend => backendTips role
  | Fullstack => fullstackTips
  | Data => dataTips
  | DevOps | General => otherTips role
  end.

(** A résumé with the given file name and target role, not yet analysed. *)
Definition uploaded (rid fname role : string) : Resume :=
  mkResume rid fname role None false "2024-01-05" None.

(** The report of a résumé, given the numerators of the six draws. *)
Definition reportOf (resume : Resume) (ks : list Z) : Analysis :=
  fst (generateAnalysisResult resume (source_of ks)).

(** The base score drawn by a run that starts from the source [src]. *)
Definition baseOf (src : RandomSource) : Z :=
  62 + floor_times (src 0%nat mod two53) 20.

(* ===================================================================== *)
(** ** The rest of the page: the report shown, file sizes, the upload *)
(* ===================================================================== *)

(** [mockAnalysis], the report shown when no result is stored. *)
Definition mockAnalysis : Analysis :=
  {| overall_score := 72;
     sections := {|
       ats_friendly := mkSection 85 good "ATS 파싱에 적합한 구조입니다.";
       impact_metrics := mkSection 60 needs_improvement "성과를 수치로 더 구체화하세요.";
       keyword_match := mkSection 78 good "주요 키워드가 적절히 포함되어 있습니다.";
       readability := mkSection 65 needs_improvement "문장을 더 간결하게 작성하세요.";
       format := mkSection 72 good "레이아웃이 깔끔합니다." |};
     writingTips :=
       [ {| category := "성과 수치화";
            tip := "성과에 수치를 추가하세요";
            example := JS.quoted "프로젝트 수행" +:+ " → " +:+
                       JS.quoted "매출 20% 증가에 기여한 프로젝트 리드";
            reason := "임팩트 수치 추가" |};
         {| category := "기술 스택 구체화";
            tip := "기술명을 구체적으로 나열하세요";
            example := JS.quoted "다양한 기술" +:+ " → " +:+
                       JS.quoted "Python, React, PostgreSQL, AWS";
            reason := "구체적 기술명 나열" |} ] |}.

(** The property names that every object literal inherits from
    [Object.prototype]: [analysisResults[key]] finds one of them when no
    result is stored under [key]. *)
Definition objectPrototypeKeys : list string :=
  [ "constructor"; "__defineGetter__"; "__defineSetter__"; "hasOwnProperty";
    "__lookupGetter__"; "__lookupSetter__"; "isPrototypeOf";
    "propertyIsEnumerable"; "toString"; "valueOf"; "__proto__";
    "toLocaleString" ].

(** What [getCurrentAnalysis] returns: a report, or (for a selected id
    that names an inherited member and has no stored result) that
    member, which is truthy and so is returned as it is. *)
Inductive Current : Type :=
  | Report (a : Analysis)
  | InheritedMember (key : string).

(** [getCurrentAnalysis]; [!selectedResume] holds for [null] and for the
    empty string. *)
Definition getCurrentAnalysis (p : Page) : Current :=
  match p.(selectedResume) with
  | None => Report mockAnalysis
  | Some s =>
      if String.eqb s EmptyString then Report mockAnalysis
      else match p.(analysisResults) !! s with
           | Some a => Report a
           | None =>
               if existsb (String.eqb s) objectPrototypeKeys
               then InheritedMember s
               else Report mockAnalysis
           end
  end.

(** The sentence under the overall score of the report. *)
Definition scoreDesc (overall : Z) : string :=
  if 80 <=? overall then "우수한 이력서입니다! 세부 사항만 다듬으면 완벽합니다."
  else if 65 <=? overall
       then "양호한 이력서입니다. 몇 가지 개선점을 반영하면 더 좋아질 수 있습니다."
       else "개선이 필요한 이력서입니다. 아래 제안사항을 참고해주세요.".

(** What a card of the résumé list shows beside the name: the score when
    there is one, and the badge "분석 필요" when there is no score and no
    analysis. *)
Definition cardScore (r : Resume) : option Z := r.(score).

Definition cardPendingBadge (r : Resume) : bool :=
  match r.(score) with
  | None => negb r.(hasAnalysis)
  | Some _ => false
  end.

(** A click on a card: [setSelectedResume(resume.id)]. *)
Definition selectCard (r : Resume) (p : Page) : Page :=
  setSelectedResume (Some r.(id)) p.

(** The decimal digits of an integer: [n.toString()], and [n + ' B']. *)
Definition decimal (n : Z) : string := NilZero.string_of_int (Z.to_int n).

(** The integer [t] that [toFixed(1)] picks for the quotient
    [num / den]: the one for which [t / 10] is nearest, the larger of the
    two on a tie. *)
Definition tenths (num den : Z) : Z := (20 * num + den) / (2 * den).

(** [(num / den).toFixed(1)] for a quotient that is not negative: the
    digits of [tenths], a point before the last one. *)
Definition toFixed1 (num den : Z) : string :=
  decimal (tenths num den / 10) +:+ "." +:+ decimal (tenths num den mod 10).

(** [formatFileSize].  The argument is the size of a file, an integer
    below 2^53, so both quotients are exact doubles. *)
Definition formatFileSize (bytes : Z) : string :=
  if bytes <? 1024 then decimal bytes +:+ " B"
  else if bytes <? 1024 * 1024 then toFixed1 bytes 1024 +:+ " KB"
  else toFixed1 bytes (1024 * 1024) +:+ " MB".

(** [!s.trim()]: the string holds nothing but white space and line
    terminators.  These are, in UTF-8, the bytes 09 to 0D and 20, U+00A0
    (C2 A0), U+1680 (E1 9A 80), U+2000 to U+200A, U+2028, U+2029, U+202F
    (E2 80 ..), U+205F (E2 81 9F), U+3000 (E3 80 80) and U+FEFF
    (EF BB BF). *)
Definition space1 (c : ascii) : bool :=
  let n := nat_of_ascii c in
  ((9 <=? n)%nat && (n <=? 13)%nat) || (n =? 32)%nat.

Definition space2 (c1 c2 : ascii) : bool :=
  (nat_of_ascii c1 =? 194)%nat && (nat_of_ascii c2 =? 160)%nat.

Definition space3 (c1 c2 c3 : ascii) : bool :=
  let a := nat_of_ascii c1 in
  let b := nat_of_ascii c2 in
  let c := nat_of_ascii c3 in
  ((a =? 225) && (b =? 154) && (c =? 128))%nat ||
  ((a =? 226) && (b =? 128) &&
     (((128 <=? c) && (c <=? 138)) || (c =? 168) || (c =? 169) || (c =? 175)))%nat ||
  ((a =? 226) && (b =? 129) && (c =? 159))%nat ||
  ((a =? 227) && (b =? 128) && (c =? 128))%nat ||
  ((a =? 239) && (b =? 187) && (c =? 191))%nat.

Fixpoint trimsToEmpty (s : string) : bool :=
  match s with
  | EmptyString => true
  | String c1 s1 =>
      if space1 c1 then trimsToEmpty s1
      else match s1 with
           | EmptyString => false
           | String c2 s2 =>
               if space2 c1 c2 then trimsToEmpty s2
               else match s2 with
                    | EmptyString => false
                    | String c3 s3 =>
                        if space3 c1 c2 c3 then trimsToEmpty s3 else false
                    end
           end
  end.

(** A [File]: its name, size in bytes and MIME type. *)
Record File : Type := mkFile {
  file_name : string;
  file_size : Z;
  file_type : string;
}.

Inductive UploadState : Type :=
  | st_idle | st_uploading | st_success | st_error.

(** The [useState] cells of the upload dialog, and the messages shown by
    [alert]. *)
Record Dialog : Type := mkDialog {
  isUploading : bool;
  uploadState : UploadState;
  uploadProgress : Z;
  form_targetRole : string;
  form_piiMasking : bool;
  selectedFile : option File;
  dragActive : bool;
  alerts : list string;
}.

Definition setUploadState (v : UploadState) (d : Dialog) : Dialog :=
  mkDialog d.(isUploading) v d.(uploadProgress) d.(form_targetRole)
           d.(form_piiMasking) d.(selectedFile) d.(dragActive) d.(alerts).

Definition setUploadProgress (f : Z -> Z) (d : Dialog) : Dialog :=
  mkDialog d.(isUploading) d.(uploadState) (f d.(uploadProgress))
           d.(form_targetRole) d.(form_piiMasking) d.(selectedFile)
           d.(dragActive) d.(alerts).

Definition setSelectedFile (v : option File) (d : Dialog) : Dialog :=
  mkDialog d.(isUploading) d.(uploadState) d.(uploadProgress)
           d.(form_targetRole) d.(form_piiMasking) v d.(dragActive) d.(alerts).

Definition setDragActive (v : bool) (d : Dialog) : Dialog :=
  mkDialog d.(isUploading) d.(uploadState) d.(uploadProgress)
           d.(form_targetRole) d.(form_piiMasking) d.(selectedFile) v d.(alerts).

Definition alert (message : string) (d : Dialog) : Dialog :=
  mkDialog d.(isUploading) d.(uploadState) d.(uploadProgress)
           d.(form_targetRole) d.(form_piiMasking) d.(selectedFile)
           d.(dragActive) (d.(alerts) ++ [message]).

(** The five state updates shared by [closeModal] and by the timer that
    closes the dialog after a success. *)
Definition resetDialog (d : Dialog) : Dialog :=
  mkDialog false st_idle 0 EmptyString false None d.(dragActive) d.(alerts).

(** [closeModal]: nothing happens while an upload is running. *)
Definition closeModal (d : Dialog) : Dialog :=
  match d.(uploadState) with
  | st_uploading => d
  | _ => resetDialog d
  end.

(** [handleFileSelect], given the files of the input element. *)
Definition handleFileSelect (files : list File) (d : Dialog) : Dialog :=
  match files with
  | f :: _ => setSelectedFile (Some f) d
  | [] => d
  end.

(** [handleDrop], given the dropped files: the first one is taken when it
    is a PDF or a DOCX document. *)
Definition handleDrop (files : list File) (d : Dialog) : Dialog :=
  let d1 := setDragActive false d in
  match files with
  | f :: _ =>
      if String.eqb f.(file_type) "application/pdf" ||
         String.eqb f.(file_type)
           "application/vnd.openxmlformats-officedocument.wordprocessingml.document"
      then setSelectedFile (Some f) d1
      else alert "PDF 또는 DOCX 파일만 업로드 가능합니다." d1
  | [] => d1
  end.

(** What one call of [handleUpload] holds in its closure: the file and
    the form of the render it belongs to, and whether its interval is
    still set. *)
Record Upload : Type := mkUpload {
  up_file : File;
  up_targetRole : string;
  up_interval : bool;
}.

(** [handleUpload], up to the [await]: the two checks, then the start of
    the simulated upload.  [None] means the call has returned. *)
Definition beginUpload (d : Dialog) : Dialog * option Upload :=
  match d.(selectedFile) with
  | None => (alert "파일을 선택해주세요." d, None)
  | Some f =>
      if trimsToEmpty d.(form_targetRole)
      then (alert "타겟 직무를 입력해주세요." d, None)
      else (setUploadProgress (fun _ => 0) (setUploadState st_uploading d),
            Some (mkUpload f d.(form_targetRole) true))
  end.

(** One firing of the 200 ms interval of the upload. *)
Definition uploadTick (st : Dialog * Upload) : Dialog * Upload :=
  let '(d, u) := st in
  if u.(up_interval) then
    if 90 <=? d.(uploadProgress)
    then (d, mkUpload u.(up_file) u.(up_targetRole) false)
    else (setUploadProgress (fun prev => prev + 10) d, u)
  else st.

Fixpoint uploadTicks (n : nat) (st : Dialog * Upload) : Dialog * Upload :=
  match n with
  | O => st
  | S n' => uploadTicks n' (uploadTick st)
  end.

(** The résumé that [handleUpload] builds; [now] is [Date.now()] and
    [today] the date part of [new Date().toISOString()]. *)
Definition newResume (now : Z) (today : string) (u : Upload) : Resume :=
  {| id := decimal now;
     filename := u.(up_file).(file_name);
     targetRole := u.(up_targetRole);
     score := None;
     hasAnalysis := false;
     createdAt := today;
     fileSize := Some (formatFileSize u.(up_file).(file_size)) |}.

(** The code after the [await] (2000 ms) of [handleUpload].  Nothing in
    the [try] block throws, so the [catch] block is never entered. *)
Definition afterUpload (now : Z) (today : string)
    (p : Page) (st : Dialog * Upload) : Page * Dialog :=
  let '(d, u) := st in
  let d1 := setUploadProgress (fun _ => 100) d in
  let r := newResume now today u in
  let p1 := setResumes (fun prev => r :: prev) p in
  let p2 := setSelectedResume (Some r.(id)) p1 in
  (p2, setUploadState st_success d1).

(** One whole call of [handleUpload] with [n] firings of its interval
    before the [await] ends; the dialog closes 1500 ms later
    ([resetDialog]). *)
Definition handleUpload (n : nat) (now : Z) (today : string)
    (p : Page) (d : Dialog) : Page * Dialog :=
  match beginUpload d with
  | (d1, None) => (p, d1)
  | (d1, Some u) => afterUpload now today p (uploadTicks n (d1, u))
  end.

(** ** Invariants of the page *)

(** A résumé has a score exactly when it has an analysis. *)
Definition scored_iff_analysed (r : Resume) : Prop :=
  r.(score) = None <-> r.(hasAnalysis) = false.

(** The selection is empty or names a résumé of the list. *)
Definition selection_listed (p : Page) : Prop :=
  match p.(selectedResume) with
  | None => True
  | Some s => exists r, In r p.(resumes) /\ r.(id) = s
  end.

Definition page_ok (p : Page) : Prop :=
  Forall scored_iff_analysed p.(resumes) /\ selection_listed p.

(** [k] is mentioned in [s]: some stretch of [s] is [k] up to the case of
    its letters. *)
Definition mentions (s k : string) : Prop :=
  exists pre w post, s = pre +:+ w +:+ post /\ JS.toLowerCase w = k.

(** The page as [ResumesPage] first renders it: the two résumés of the
    initial [useState] value, the first one selected, no analysis
    running and no stored result. *)
Definition initialPage : Page :=
  {| resumes :=
       [ mkResume "1" "이력서_프론트엔드_2024.pdf" "Frontend Engineer"
                  (Some 72) true "2024-01-10" (Some "245 KB");
         mkResume "2" "이력서_풀스택_2024.pdf" "Full Stack Developer"
                  None false "2024-01-05" (Some "312 KB") ];
     selectedResume := Some "1";
     isAnalyzing := false;
     analysisProgress := 0;
     analysisResults := ∅;
     console := [] |}.

(** Two pages that differ at most in the progress value. *)
Definition same_but_progress (p q : Page) : Prop :=
  resumes q = resumes p /\ selectedResume q = selectedResume p /\
  isAnalyzing q = isAnalyzing p /\ analysisResults q = analysisResults p /\
  console q = console p.

(** The phases of a run and the percentage bracket of each, as the
    specification lists them: parsing [0, 20), ATS check [20, 40), impact
    analysis [40, 60), keyword analysis [60, 80), tip generation
    [80, 100]. *)
Inductive Phase : Type :=
  | Parsing | AtsCheck | ImpactAnalysis | KeywordAnalysis | TipGeneration.

Definition spec_phase (percent : Z) : option Phase :=
  if (0 <=? percent) && (percent <? 20) then Some Parsing
  else if (20 <=? percent) && (percent <? 40) then Some AtsCheck
  else if (40 <=? percent) && (percent <? 60) then Some ImpactAnalysis
  else if (60 <=? percent) && (percent <? 80) then Some KeywordAnalysis
  else if (80 <=? percent) && (percent <=? 100) then Some TipGeneration
  else None.

(** The label the page shows for each phase. *)
Definition phaseLabel (ph : Phase) : string :=
  match ph with
  | Parsing => "📄 이력서 파싱 중..."
  | AtsCheck => "🔍 ATS 호환성 검사 중..."
  | ImpactAnalysis => "📊 임팩트 분석 중..."
  | KeywordAnalysis => "🔑 키워드 매칭 분석 중..."
  | TipGeneration => "✨ 개선 제안 생성 중..."
  end.

(* ===================================================================== *)
(** * Properties *)
(* ===================================================================== *)

(** ** The random draws *)

Lemma two53_pos : 0 < two53.
Proof. reflexivity. Qed.

(** [Math.floor(Math.random() * n)] is one of [0], ..., [n - 1]. *)
Lemma floor_times_range (k n : Z) :
  0 < n -> 0 <= floor_times (k mod two53) n < n.
Proof.
  intros Hn. unfold floor_times.
  pose proof two53_pos as Hpos.
  pose proof (Z.mod_pos_bound k two53 Hpos) as [Hlo Hhi].
  split.
  - apply Z.div_pos; [nia | assumption].
  - apply Z.div_lt_upper_bound; [assumption | nia].
Qed.

Lemma baseOf_range (src : RandomSource) : 62 <= baseOf src <= 81.
Proof.
  unfold baseOf.
  pose proof (floor_times_range (src 0%nat) 20). lia.
Qed.

(** The report, field by field, in terms of the six draws. *)
Lemma report_overall (resume : Resume) (src : RandomSource) :
  overall_score (fst (generateAnalysisResult resume src)) = baseOf src.
Proof. reflexivity. Qed.

Lemma report_tips (resume : Resume) (src : RandomSource) :
  writingTips (fst (generateAnalysisResult resume src)) =
  getWritingTips resume (detectFlags resume).
Proof. reflexivity. Qed.

Lemma report_sections (resume : Resume) (src : RandomSource) :
  let a := fst (generateAnalysisResult resume src) in
  let b := baseOf src in
  let j i n := floor_times (src i mod two53) n in
  sec_score (ats_friendly (sections a)) = Z.min 100 (b + 8 + j 1%nat 10) /\
  sec_score (impact_metrics (sections a)) = Z.min 100 (b - 5 + j 2%nat 15) /\
  sec_score (keyword_match (sections a)) = Z.min 100 (b + 5 + j 3%nat 12) /\
  sec_score (readability (sections a)) = Z.min 100 (b + j 4%nat 15) /\
  sec_score (format (sections a)) = Z.min 100 (b + 10 + j 5%nat 8).
Proof. repeat split; reflexivity. Qed.

Lemma report_status (resume : Resume) (src : RandomSource) :
  let a := fst (generateAnalysisResult resume src) in
  status (ats_friendly (sections a)) = good /\
  status (keyword_match (sections a)) = good /\
  status (format (sections a)) = good /\
  status (impact_metrics (sections a)) =
    (if 70 <? baseOf src then good else needs_improvement) /\
  status (readability (sections a)) =
    (if 65 <? baseOf src then good else needs_improvement).
Proof. repeat split; reflexivity. Qed.

Lemma report_keyword_feedback (resume : Resume) (src : RandomSource) :
  feedback (keyword_match (sections (fst (generateAnalysisResult resume src)))) =
  keywordFeedback resume.(targetRole) (getRoleKeywords (detectFlags resume)).
Proof. reflexivity. Qed.

(** ** The two chains factor through the category *)

Ltac flag_cases fl :=
  destruct (isFrontend fl), (isBackend fl), (isFullstack fl),
           (isData fl), (isDevOps fl).

Lemma getRoleKeywords_category (fl : RoleFlags) :
  getRoleKeywords fl = keywordsOf (categoryOf fl).
Proof. unfold getRoleKeywords, categoryOf. flag_cases fl; reflexivity. Qed.

Lemma getWritingTips_category (resume : Resume) (fl : RoleFlags) :
  getWritingTips resume fl = tipsOf (categoryOf fl) resume.(targetRole).
Proof. unfold getWritingTips, categoryOf. flag_cases fl; reflexivity. Qed.


Lemma tipsOf_length (c : RoleCategory) (role : string) :
  length (tipsOf c role) = 3%nat.
Proof. destruct c; reflexivity. Qed.

(** ** Scores and statuses *)

(** C1, as amended.  In every report the status of ats_friendly,
    keyword_match and format is good; the status of impact_metrics is
    good exactly when the overall (base) score is greater than 70, and
    the status of readability is good exactly when the overall score is
    greater than 65.  Both thresholds are compared with the base score of
    the run, not with the score of the section. *)
Theorem status_follows_base_score (resume : Resume) (src : RandomSource) :
  let a := fst (generateAnalysisResult resume src) in
  status (ats_friendly (sections a)) = good /\
  status (format (sections a)) = good /\
  status (keyword_match (sections a)) = good /\
  (status (impact_metrics (sections a)) = good <-> 70 < overall_score a) /\
  (status (readability (sections a)) = good <-> 65 < overall_score a).
Proof.
  intros a.
  destruct (report_status resume src) as (Hats & Hkw & Hfmt & Himp & Hread).
  fold a in Hats, Hkw, Hfmt, Himp, Hread.
  assert (Hov : overall_score a = baseOf src) by apply report_overall.
  rewrite Himp, Hread, Hov.
  repeat split; try assumption.
  - destruct (70 <? baseOf src) eqn:E; [lia | discriminate].
  - intros H. apply Z.ltb_lt in H. rewrite H. reflexivity.
  - destruct (65 <? baseOf src) eqn:E; [lia | discriminate].
  - intros H. apply Z.ltb_lt in H. rewrite H. reflexivity.
Qed.

(** C1, as stated, fails.  With a base score of 65 and the largest
    impact jitter, the impact_metrics score is 74 and the readability
    score is 65: both reach their thresholds of 70 and 65, and both
    statuses are needs_improvement. *)
Lemma status_own_score_counterexample :
  let a := reportOf (uploaded "1" "cv.pdf" "Designer")
                    [1351079888211149; 0; 2 ^ 53 - 1; 0; 0; 0] in
  overall_score a = 65 /\
  ~ (status (impact_metrics (sections a)) = good <->
     70 <= sec_score (impact_metrics (sections a))) /\
  ~ (status (readability (sections a)) = good <->
     65 <= sec_score (readability (sections a))).
Proof.
  vm_compute. split; [reflexivity |].
  split; intros [_ H]; (assert (G : needs_improvement = good)
    by (apply H; intros C; discriminate C)); discriminate G.
Qed.

(** C3.  The overall score of a report is the base draw and lies in
    [62, 81]; each of the five section scores is the base plus the fixed
    offset of the section plus a jitter drawn below the width of the
    section, clamped to [0, 100], and so lies in [0, 100]. *)
Theorem scores_within_bounds (resume : Resume) (src : RandomSource) :
  let a := fst (generateAnalysisResult resume src) in
  let clamped (s : Section_) (offset width : Z) :=
    0 <= sec_score s <= 100 /\
    exists jitter, 0 <= jitter < width /\
      sec_score s = Z.max 0 (Z.min 100 (overall_score a + offset + jitter)) in
  overall_score a = baseOf src /\
  62 <= overall_score a <= 81 /\
  clamped (ats_friendly (sections a)) 8 10 /\
  clamped (impact_metrics (sections a)) (-5) 15 /\
  clamped (keyword_match (sections a)) 5 12 /\
  clamped (readability (sections a)) 0 15 /\
  clamped (format (sections a)) 10 8.
Proof.
  intros a clamped.
  assert (Hov : overall_score a = baseOf src) by apply report_overall.
  pose proof (baseOf_range src) as Hb.
  destruct (report_sections resume src) as (H1 & H2 & H3 & H4 & H5).
  cbv zeta in H1, H2, H3, H4, H5. fold a in H1, H2, H3, H4, H5.
  pose proof (floor_times_range (src 1%nat) 10) as J1.
  pose proof (floor_times_range (src 2%nat) 15) as J2.
  pose proof (floor_times_range (src 3%nat) 12) as J3.
  pose proof (floor_times_range (src 4%nat) 15) as J4.
  pose proof (floor_times_range (src 5%nat) 8) as J5.
  split; [exact Hov |]. split; [lia |].
  unfold clamped. rewrite Hov.
  repeat split; try lia.
  - exists (floor_times (src 1%nat mod two53) 10). lia.
  - exists (floor_times (src 2%nat mod two53) 15). lia.
  - exists (floor_times (src 3%nat mod two53) 12). lia.
  - exists (floor_times (src 4%nat mod two53) 15). replace (baseOf src + 0) with (baseOf src) by lia. lia.
  - exists (floor_times (src 5%nat mod two53) 8). lia.
Qed.

(** ** Role classification *)




Lemma categoryOf_cases (fl : RoleFlags) :
  (categoryOf fl = Frontend <-> isFrontend fl = true) /\
  (categoryOf fl = Backend <-> isFrontend fl = false /\ isBackend fl = true) /\
  (categoryOf fl = Fullstack <->
     isFrontend fl = false /\ isBackend fl = false /\ isFullstack fl = true) /\
  (categoryOf fl = Data <->
     isFrontend fl = false /\ isBackend fl = false /\ isFullstack fl = false /\
     isData fl = true) /\
  (categoryOf fl = DevOps <->
     isFrontend fl = false /\ isBackend fl = false /\ isFullstack fl = false /\
     isData fl = false /\ isDevOps fl = true) /\
  (categoryOf fl = General <->
     isFrontend fl = false /\ isBackend fl = false /\ isFullstack fl = false /\
     isData fl = false /\ isDevOps fl = false).
Proof.
  unfold categoryOf.
  flag_cases fl;
    repeat split; intros; try discriminate; try reflexivity;
    repeat match goal with H : _ /\ _ |- _ => destruct H end; discriminate.
Qed.



(** The scenarios of the specification. *)
Example classify_frontend_scenario :
  classify (uploaded "1" "이력서_프론트엔드_2024.pdf" "Frontend Engineer") = Frontend.
Proof. reflexivity. Qed.

Example classify_backend_scenario :
  classify (uploaded "2" "resume.pdf" "백엔드 개발자") = Backend.
Proof. reflexivity. Qed.

Example classify_upper_case_scenario :
  classify (uploaded "4" "CV_FULL_STACK.PDF" "DEVELOPER") = Fullstack.
Proof. reflexivity. Qed.

(** Every category is the category of some résumé. *)
Lemma classify_onto (c : RoleCategory) : exists resume, classify resume = c.
Proof.
  destruct c.
  - exists (uploaded "1" "cv.pdf" "React Developer"); reflexivity.
  - exists (uploaded "1" "cv.pdf" "서버 개발자"); reflexivity.
  - exists (uploaded "1" "cv.pdf" "Full Stack Developer"); reflexivity.
  - exists (uploaded "1" "cv.pdf" "Data Analyst"); reflexivity.
  - exists (uploaded "1" "cv.pdf" "DevOps Engineer"); reflexivity.
  - exists (uploaded "1" "cv.pdf" "Designer"); reflexivity.
Qed.

(** ** Writing tips *)

Lemma report_tips_category (resume : Resume) (src : RandomSource) :
  writingTips (fst (generateAnalysisResult resume src)) =
  tipsOf (classify resume) (targetRole resume).
Proof. rewrite report_tips. apply getWritingTips_category. Qed.

(** C4, as amended.  The writing tips of a report are exactly three and
    are determined by the category together with the target role of the
    résumé, which the Frontend, Backend and General tips quote: two runs
    whose résumés have the same category and the same target role give
    the same tips, whatever the random draws and the other fields; for
    Fullstack and Data the category alone determines them. *)
Theorem writing_tips_by_category_and_role
    (r1 r2 : Resume) (src1 src2 : RandomSource) :
  let t1 := writingTips (fst (generateAnalysisResult r1 src1)) in
  let t2 := writingTips (fst (generateAnalysisResult r2 src2)) in
  length t1 = 3%nat /\
  t1 = tipsOf (classify r1) (targetRole r1) /\
  (classify r1 = classify r2 -> targetRole r1 = targetRole r2 -> t1 = t2) /\
  (classify r1 = classify r2 ->
   classify r1 = Fullstack \/ classify r1 = Data -> t1 = t2).
Proof.
  intros t1 t2. unfold t1, t2. rewrite !report_tips_category.
  split; [apply tipsOf_length |].
  split; [reflexivity |].
  split.
  - intros Hc Hr. rewrite Hc, Hr. reflexivity.
  - intros Hc [H | H]; rewrite <- Hc, H; reflexivity.
Qed.

Lemma writing_tips_by_category_and_role_witness :
  writingTips (reportOf (uploaded "1" "front.pdf" "Web Developer") [0; 1; 2; 3; 4; 5]) =
  writingTips (reportOf (uploaded "2" "FrontEnd_cv.pdf" "Web Developer")
                        [2 ^ 52; 2 ^ 52; 0; 0; 0; 0]) /\
  writingTips (reportOf (uploaded "2" "이력서_풀스택_2024.pdf" "Full Stack Developer") []) =
  writingTips (reportOf (uploaded "5" "cv.pdf" "Fullstack Engineer") [2 ^ 52]).
Proof.
  split.
  - pose proof (writing_tips_by_category_and_role
                  (uploaded "1" "front.pdf" "Web Developer")
                  (uploaded "2" "FrontEnd_cv.pdf" "Web Developer")
                  (source_of [0; 1; 2; 3; 4; 5])
                  (source_of [2 ^ 52; 2 ^ 52; 0; 0; 0; 0])) as H.
    cbv zeta in H. destruct H as (_ & _ & H & _).
    apply H; reflexivity.
  - pose proof (writing_tips_by_category_and_role
                  (uploaded "2" "이력서_풀스택_2024.pdf" "Full Stack Developer")
                  (uploaded "5" "cv.pdf" "Fullstack Engineer")
                  (source_of []) (source_of [2 ^ 52])) as H.
    cbv zeta in H. destruct H as (_ & _ & _ & H).
    apply H; [reflexivity | left; reflexivity].
Defined.

(** C4, as stated, fails: two résumés of the category Frontend with
    different target roles get different tips under the same draws (the
    reason of the first tip quotes the target role). *)
Lemma writing_tips_category_alone_counterexample :
  let r1 := uploaded "1" "cv.pdf" "Frontend Engineer" in
  let r2 := uploaded "2" "cv.pdf" "React Developer" in
  classify r1 = classify r2 /\
  writingTips (reportOf r1 [0; 0; 0; 0; 0; 0]) <>
  writingTips (reportOf r2 [0; 0; 0; 0; 0; 0]).
Proof.
  split; [reflexivity |].
  vm_compute. intros H. discriminate H.
Qed.

(** ** Keyword feedback *)

(** C9.  For every category, which some résumé has, the keyword_match
    feedback of a résumé of that category quotes the first three keywords
    of the category's list, joined by commas, as present, and the fourth
    and fifth as recommended to add. *)
Theorem keyword_feedback_first_three_next_two (c : RoleCategory) :
  (exists resume, classify resume = c) /\
  forall (resume : Resume) (src : RandomSource),
    classify resume = c ->
    exists k1 k2 k3 k4 k5 rest,
      getRoleKeywords (detectFlags resume) = k1 :: k2 :: k3 :: k4 :: k5 :: rest /\
      keywordsOf c = k1 :: k2 :: k3 :: k4 :: k5 :: rest /\
      JS.slice (keywordsOf c) 0 3 = [k1; k2; k3] /\
      JS.slice (keywordsOf c) 3 5 = [k4; k5] /\
      feedback (keyword_match (sections (fst (generateAnalysisResult resume src)))) =
        targetRole resume +:+ " 직무와 관련된 핵심 키워드(" +:+
        JS.join [k1; k2; k3] ", " +:+
        ")가 포함되어 있습니다. " +:+
        JS.join [k4; k5] ", " +:+
        " 키워드 추가를 권장합니다.".
Proof.
  split; [apply classify_onto |].
  intros resume src Hc.
  rewrite report_keyword_feedback, getRoleKeywords_category.
  fold (classify resume). rewrite Hc.
  destruct c; simpl; do 6 eexists; repeat split; reflexivity.
Qed.

Lemma keyword_feedback_first_three_next_two_witness :
  feedback (keyword_match (sections
    (reportOf (uploaded "2" "이력서_풀스택_2024.pdf" "Full Stack Developer")
              [0; 0; 0; 0; 0; 0]))) =
  "Full Stack Developer 직무와 관련된 핵심 키워드(React, Node.js, TypeScript)가 포함되어 있습니다. PostgreSQL, Docker 키워드 추가를 권장합니다.".
Proof.
  destruct (keyword_feedback_first_three_next_two Fullstack) as [_ H].
  destruct (H (uploaded "2" "이력서_풀스택_2024.pdf" "Full Stack Developer")
              (source_of [0; 0; 0; 0; 0; 0]) eq_refl)
    as (k1 & k2 & k3 & k4 & k5 & rest & _ & Hk & _ & _ & Hfb).
  injection Hk as <- <- <- <- <- <-.
  exact Hfb.
Defined.

(** C10.  A résumé whose metadata matches the DevOps test and none of the
    four tests before it gets the tips of the last branch of
    [getWritingTips], the ones a General résumé gets (there are no DevOps
    tips), while its keyword list, quoted in the keyword_match feedback,
    is the DevOps one. *)
Theorem devops_general_tips_devops_keywords
    (resume : Resume) (src : RandomSource) :
  let fl := detectFlags resume in
  let a := fst (generateAnalysisResult resume src) in
  let devopsKeywords :=
    ["Docker"; "Kubernetes"; "AWS"; "CI/CD"; "Terraform"; "Linux"] in
  isDevOps fl = true ->
  isFrontend fl = false -> isBackend fl = false ->
  isFullstack fl = false -> isData fl = false ->
  classify resume = DevOps /\
  writingTips a = otherTips (targetRole resume) /\
  (forall (g : Resume) (src' : RandomSource),
     classify g = General ->
     writingTips (fst (generateAnalysisResult g src')) = otherTips (targetRole g)) /\
  getRoleKeywords fl = devopsKeywords /\
  feedback (keyword_match (sections a)) =
    keywordFeedback (targetRole resume) devopsKeywords.
Proof.
  intros fl a kws HO HF HB HS HD.
  assert (Hc : classify resume = DevOps).
  { unfold classify. apply categoryOf_cases. fold fl. tauto. }
  assert (Hk : getRoleKeywords fl = kws).
  { unfold fl. rewrite getRoleKeywords_category. fold (classify resume).
    rewrite Hc. reflexivity. }
  split; [exact Hc |].
  split; [unfold a; rewrite report_tips_category, Hc; reflexivity |].
  split.
  { intros g src' Hg. rewrite report_tips_category, Hg. reflexivity. }
  split; [exact Hk |].
  unfold a. rewrite report_keyword_feedback. fold fl. rewrite Hk. reflexivity.
Qed.

Lemma devops_general_tips_devops_keywords_witness :
  writingTips (reportOf (uploaded "7" "이력서_2024.pdf" "DevOps Engineer")
                        [2 ^ 52; 0; 0; 0; 0; 0]) = otherTips "DevOps Engineer" /\
  getRoleKeywords (detectFlags (uploaded "7" "이력서_2024.pdf" "DevOps Engineer")) =
    ["Docker"; "Kubernetes"; "AWS"; "CI/CD"; "Terraform"; "Linux"].
Proof.
  pose proof (devops_general_tips_devops_keywords
                (uploaded "7" "이력서_2024.pdf" "DevOps Engineer")
                (source_of [2 ^ 52; 0; 0; 0; 0; 0]))
    as H.
  cbv zeta in H.
  destruct H as (_ & Ht & _ & Hk & _); try reflexivity.
  split; [exact Ht | exact Hk].
Defined.

(** ** The interval *)

Lemma same_but_progress_refl (p : Page) : same_but_progress p p.
Proof. repeat split. Qed.

Lemma same_but_progress_trans (p q r : Page) :
  same_but_progress p q -> same_but_progress q r -> same_but_progress p r.
Proof.
  unfold same_but_progress.
  intros (A1 & A2 & A3 & A4 & A5) (B1 & B2 & B3 & B4 & B5).
  repeat split; congruence.
Qed.

(** A firing never touches anything but the progress, and keeps the
    argument and the captured array of the call. *)
Lemma tick_frame (p : Page) (r : Run) (src : RandomSource) :
  let st := fst (tick (p, r) src) in
  same_but_progress p (fst st) /\
  run_resumeId (snd st) = run_resumeId r /\
  run_resumes (snd st) = run_resumes r.
Proof.
  unfold tick.
  destruct (progressInterval r); [| repeat split].
  destruct (95 <=? analysisProgress p); repeat split.
Qed.

(** Below 95, a firing of a live interval adds 3 to 10 points. *)
Lemma tick_advances (p : Page) (r : Run) (src : RandomSource) :
  progressInterval r = true ->
  analysisProgress p < 95 ->
  let st := fst (tick (p, r) src) in
  snd st = r /\
  analysisProgress p + 3 <= analysisProgress (fst st) <= analysisProgress p + 10.
Proof.
  intros Hlive Hlt. unfold tick. rewrite Hlive.
  destruct (Z.leb_spec 95 (analysisProgress p)) as [Hge | _]; [lia |].
  unfold bind, Math_random, ret; simpl.
  pose proof (floor_times_range (src 0%nat) 8).
  split; [reflexivity | lia].
Qed.

Lemma ticks_succ (n : nat) (st : Page * Run) (src : RandomSource) :
  ticks (S n) st src =
  let '(st1, src1) := tick st src in
  let '(rest, src2) := ticks n st1 src1 in
  (fst rest, fst st1 :: snd rest, src2).
Proof. reflexivity. Qed.

Lemma ticks_frame (n : nat) :
  forall (p : Page) (r : Run) (src : RandomSource),
    let res := fst (ticks n (p, r) src) in
    same_but_progress p (fst (fst res)) /\
    run_resumeId (snd (fst res)) = run_resumeId r /\
    run_resumes (snd (fst res)) = run_resumes r /\
    Forall (same_but_progress p) (snd res).
Proof.
  induction n as [| n IH]; intros p r src.
  - simpl. repeat split. constructor.
  - rewrite ticks_succ.
    pose proof (tick_frame p r src) as (F1 & F2 & F3).
    destruct (tick (p, r) src) as [[p1 r1] src1] eqn:Et.
    simpl in F1, F2, F3.
    specialize (IH p1 r1 src1).
    destruct (ticks n (p1, r1) src1) as [[[p2 r2] hist] src2].
    simpl in IH. destruct IH as (G1 & G2 & G3 & G4). simpl.
    split; [eapply same_but_progress_trans; eassumption |].
    split; [congruence |]. split; [congruence |].
    constructor; [assumption |].
    eapply Forall_impl; [exact G4 |].
    intros q Hq. eapply same_but_progress_trans; eassumption.
Qed.

(** Started below 95 with a live interval, [n] firings that cannot reach
    95 give a strictly increasing run of progress values. *)
Lemma ticks_advance (n : nat) :
  forall (p : Page) (r : Run) (src : RandomSource),
    progressInterval r = true ->
    analysisProgress p + 10 * Z.of_nat n <= 100 ->
    let res := fst (ticks n (p, r) src) in
    snd (fst res) = r /\
    StronglySorted Z.lt (analysisProgress p :: map analysisProgress (snd res)) /\
    Forall (fun q => analysisProgress q <= analysisProgress p + 10 * Z.of_nat n)
           (snd res) /\
    analysisProgress p <= analysisProgress (fst (fst res))
      <= analysisProgress p + 10 * Z.of_nat n.
Proof.
  induction n as [| n IH]; intros p r src Hlive Hroom.
  - simpl. repeat split; try lia.
    + repeat constructor.
    + constructor.
  - rewrite ticks_succ.
    assert (Hlt : analysisProgress p < 95) by lia.
    pose proof (tick_advances p r src Hlive Hlt) as (T1 & T2).
    destruct (tick (p, r) src) as [[p1 r1] src1] eqn:Et.
    simpl in T1, T2. subst r1.
    assert (Hroom1 : analysisProgress p1 + 10 * Z.of_nat n <= 100) by lia.
    specialize (IH p1 r src1 Hlive Hroom1).
    destruct (ticks n (p1, r) src1) as [[[p2 r2] hist] src2].
    simpl in IH. destruct IH as (G1 & G2 & G3 & G4). simpl.
    split; [assumption |].
    split.
    { constructor; [exact G2 |].
      constructor; [lia |].
      apply StronglySorted_inv in G2. destruct G2 as [_ G2].
      eapply Forall_impl; [exact G2 |]. intros x Hx. simpl in Hx. lia. }
    split.
    { constructor; [lia |].
      eapply Forall_impl; [exact G3 |]. intros x Hx. simpl in Hx. lia. }
    lia.
Qed.

(** ** One call of handleStartAnalysis *)

(** The run, spelled out along the two outcomes of the lookup. *)
Lemma handleStartAnalysis_unfold
    (n : nat) (resumeId : string) (p : Page) (src : RandomSource) :
  let p0 := fst (beginAnalysis resumeId p) in
  let tk := ticks n (beginAnalysis resumeId p) src in
  let p1 := setAnalysisProgress (fun _ => 100) (fst (fst (fst tk))) in
  let ticked := snd (fst tk) in
  fst (handleStartAnalysis n resumeId p src) =
  match JS.find (fun x => String.eqb (id x) resumeId) (resumes p) with
  | None =>
      (finallyBlock (catchBlock p1),
       (p0 :: ticked ++ [finallyBlock (catchBlock p1)])%list)
  | Some targetResume =>
      let result := fst (generateAnalysisResult targetResume (snd tk)) in
      let p3 := publishResult resumeId result p1 in
      (finallyBlock p3, (p0 :: ticked ++ [p3; finallyBlock p3])%list)
  end.
Proof.
  intros p0 tk p1 ticked. unfold handleStartAnalysis, bind.
  pose proof (ticks_frame n (fst (beginAnalysis resumeId p))
                (snd (beginAnalysis resumeId p)) src) as (_ & Fid & Fres & _).
  unfold p1, ticked, p0, tk. clear p0 tk p1 ticked.
  change (fst (beginAnalysis resumeId p), snd (beginAnalysis resumeId p))
    with (beginAnalysis resumeId p) in Fid, Fres.
  destruct (ticks n (beginAnalysis resumeId p) src) as [[[q r] hist] src1].
  simpl in Fid, Fres. cbn [fst snd].
  unfold afterDelay. rewrite Fid, Fres.
  destruct (JS.find (fun x => String.eqb (id x) resumeId) (resumes p)).
  - unfold bind, ret.
    destruct (generateAnalysisResult r0 src1) as [result src2].
    reflexivity.
  - reflexivity.
Qed.

Lemma nominalTicks_eq : nominalTicks = 8%nat.
Proof. reflexivity. Qed.

(** After the start of a call, the firings that fit before the first
    [await] ends keep the page analyzing and raise the progress from 0,
    step by step, to at most 80. *)
Lemma ticks_after_begin
    (n : nat) (resumeId : string) (p : Page) (src : RandomSource) :
  (n <= nominalTicks)%nat ->
  let ticked := snd (fst (ticks n (beginAnalysis resumeId p) src)) in
  Forall (fun q => isAnalyzing q = true) ticked /\
  StronglySorted Z.lt (0 :: map analysisProgress ticked) /\
  Forall (fun q => analysisProgress q <= 80) ticked.
Proof.
  intros Hn. rewrite nominalTicks_eq in Hn.
  pose proof (ticks_frame n (fst (beginAnalysis resumeId p))
                (snd (beginAnalysis resumeId p)) src) as (_ & _ & _ & Fr).
  pose proof (ticks_advance n (fst (beginAnalysis resumeId p))
                (snd (beginAnalysis resumeId p)) src eq_refl) as Adv.
  change (fst (beginAnalysis resumeId p), snd (beginAnalysis resumeId p))
    with (beginAnalysis resumeId p) in Fr, Adv.
  simpl analysisProgress in Adv.
  destruct Adv as (_ & Sorted & Bound & _); [lia |].
  intros ticked. fold ticked in Fr, Sorted, Bound.
  split; [| split].
  - eapply Forall_impl; [exact Fr |].
    intros q (_ & _ & Hq & _). exact Hq.
  - exact Sorted.
  - eapply Forall_impl; [exact Bound |]. intros q Hq. simpl in Hq. lia.
Qed.

(** Whatever the number of firings, they leave everything but the
    progress as the start of the call left it. *)
Lemma ticks_begin_frame
    (n : nat) (resumeId : string) (p : Page) (src : RandomSource) :
  let tk := fst (ticks n (beginAnalysis resumeId p) src) in
  same_but_progress (fst (beginAnalysis resumeId p)) (fst (fst tk)) /\
  Forall (same_but_progress (fst (beginAnalysis resumeId p))) (snd tk).
Proof.
  pose proof (ticks_frame n (fst (beginAnalysis resumeId p))
                (snd (beginAnalysis resumeId p)) src) as (F1 & _ & _ & F2).
  split; assumption.
Qed.

(** The bound on the firings matters: were the continuation late enough
    for eleven firings, nine steps of 10, one of 3 and one more of 10
    would take the progress to 103. *)
Example late_continuation_overshoots :
  let top := 2 ^ 53 - 1 in
  map analysisProgress
      (snd (fst (ticks 11 (beginAnalysis "2" initialPage)
                   (source_of [top; top; top; top; top; top; top; top; top; 0; top]))))
  = [10; 20; 30; 40; 50; 60; 70; 80; 90; 93; 103].
Proof. vm_compute. reflexivity. Qed.

Lemma filter_isAnalyzing_all (l : list Page) :
  Forall (fun q => isAnalyzing q = true) l -> List.filter isAnalyzing l = l.
Proof.
  induction 1 as [| q l Hq _ IH]; simpl; [reflexivity |].
  rewrite Hq, IH. reflexivity.
Qed.

Lemma StronglySorted_snoc (l : list Z) (top : Z) :
  StronglySorted Z.lt l -> Forall (fun x => x < top) l ->
  StronglySorted Z.lt (l ++ [top]).
Proof.
  induction 1 as [| x l Hs IH Hx]; intros Hb; simpl.
  - repeat constructor.
  - apply Forall_cons in Hb. destruct Hb as [Hxt Hb].
    constructor; [apply IH; exact Hb |].
    apply Forall_app. split; [exact Hx |]. repeat constructor. exact Hxt.
Qed.

(** Within [0, 100] the label under the bar is the label of the bracket
    of the specification. *)
Lemma analysisStep_phase (v : Z) :
  0 <= v <= 100 ->
  exists ph, spec_phase v = Some ph /\ analysisStep v = phaseLabel ph.
Proof.
  intros Hv. unfold spec_phase, analysisStep.
  destruct (Z.leb_spec 0 v); [| lia].
  destruct (Z.leb_spec v 100); [| lia].
  destruct (Z.ltb_spec v 20), (Z.leb_spec 20 v), (Z.ltb_spec v 40),
           (Z.leb_spec 40 v), (Z.ltb_spec v 60), (Z.leb_spec 60 v),
           (Z.ltb_spec v 80), (Z.leb_spec 80 v);
    try lia; simpl; eexists; split; reflexivity.
Qed.

Lemma shownProgress_run (p0 : Page) (ticked tail : list Page) :
  isAnalyzing p0 = true ->
  Forall (fun q => isAnalyzing q = true) ticked ->
  shownProgress (p0 :: ticked ++ tail) =
  analysisProgress p0 :: map analysisProgress ticked ++ shownProgress tail.
Proof.
  intros H0 Hall. unfold shownProgress.
  change (p0 :: ticked ++ tail)%list with ([p0] ++ ticked ++ tail)%list.
  rewrite !List.filter_app, (filter_isAnalyzing_all ticked Hall), !List.map_app.
  simpl. rewrite H0. reflexivity.
Qed.

(** C7.  In a call with at most the nominal number of firings of the
    interval before the first [await] ends, the progress values shown
    while the page is analyzing start at 0 and increase strictly; each
    lies in [0, 100] and its label is the one of its bracket; and when the
    résumé is found, the last value shown is 100, on the page that holds
    the stored result.  The [finally] block then leaves the analyzing
    state, putting the counter back to 0 as it clears the flag. *)
Theorem progress_sequence
    (n : nat) (resumeId : string) (p : Page) (src : RandomSource) :
  (n <= nominalTicks)%nat ->
  let res := fst (handleStartAnalysis n resumeId p src) in
  let shown := shownProgress (snd res) in
  head shown = Some 0 /\
  StronglySorted Z.lt shown /\
  Forall (fun v => 0 <= v <= 100 /\
                   exists ph, spec_phase v = Some ph /\
                              analysisStep v = phaseLabel ph) shown /\
  (is_Some (JS.find (fun x => String.eqb (id x) resumeId) (resumes p)) ->
   last shown = Some 100 /\
   exists q, In q (snd res) /\ isAnalyzing q = true /\
             analysisProgress q = 100 /\
             is_Some (analysisResults q !! resumeId)) /\
  isAnalyzing (fst res) = false /\
  analysisProgress (fst res) = 0.
Proof.
  intros Hn res shown.
  pose proof (handleStartAnalysis_unfold n resumeId p src) as U.
  cbv zeta in U. fold res in U.
  pose proof (ticks_after_begin n resumeId p src Hn) as (Hall & Hsorted & Hbound).
  cbv zeta in Hall, Hsorted, Hbound.
  set (ticked := snd (fst (ticks n (beginAnalysis resumeId p) src))) in *.
  assert (Hrange : Forall (fun v => 0 <= v <= 100 /\
                     exists ph, spec_phase v = Some ph /\
                                analysisStep v = phaseLabel ph)
                          (0 :: map analysisProgress ticked)).
  { constructor; [split; [lia | apply analysisStep_phase; lia] |].
    pose proof (StronglySorted_inv Hsorted) as [_ Hpos].
    apply List.Forall_forall. intros v Hv.
    apply in_map_iff in Hv. destruct Hv as (q & <- & Hq).
    pose proof (proj1 (List.Forall_forall _ _) Hpos (analysisProgress q)
                  (in_map _ _ _ Hq)) as Hlo.
    pose proof (proj1 (List.Forall_forall _ _) Hbound q Hq) as Hhi.
    simpl in Hhi.
    split; [lia | apply analysisStep_phase; lia]. }
  destruct (JS.find (fun x => String.eqb (id x) resumeId) (resumes p))
    as [targetResume |] eqn:Efind.
  - cbv zeta in U.
    set (result := fst (generateAnalysisResult targetResume
                          (snd (ticks n (beginAnalysis resumeId p) src)))) in U.
    set (p3 := publishResult resumeId result _) in U.
    pose proof (ticks_begin_frame n resumeId p src) as [(_ & _ & Hrun & _) _].
    assert (Hp3 : isAnalyzing p3 = true) by exact Hrun.
    assert (Hshown : shown = (0 :: map analysisProgress ticked) ++ [100]).
    { unfold shown. rewrite U. cbn [snd].
      rewrite shownProgress_run; [| reflexivity | exact Hall].
      unfold shownProgress. cbn [List.filter]. rewrite Hp3. reflexivity. }
    rewrite Hshown.
    split; [reflexivity |].
    split.
    { apply StronglySorted_snoc; [exact Hsorted |].
      constructor; [lia |].
      apply Forall_map. eapply Forall_impl; [exact Hbound |].
      intros q Hq. simpl in Hq. lia. }
    split.
    { apply Forall_app. split; [exact Hrange |].
      repeat constructor; try lia. apply analysisStep_phase; lia. }
    split.
    { intros _. split; [apply last_snoc |].
      exists p3. rewrite U. cbn [snd].
      split; [right; apply in_or_app; right; left; reflexivity |].
      split; [exact Hp3 |]. split; [reflexivity |].
      unfold p3, publishResult, setResumes, setAnalysisResults. cbn.
      rewrite lookup_insert_eq. eexists; reflexivity. }
    rewrite U. split; reflexivity.
  - assert (Hshown : shown = 0 :: map analysisProgress ticked).
    { unfold shown. rewrite U. cbn [snd].
      rewrite shownProgress_run; [| reflexivity | exact Hall].
      unfold shownProgress. simpl. rewrite app_nil_r. reflexivity. }
    rewrite Hshown.
    split; [reflexivity |].
    split; [exact Hsorted |].
    split; [exact Hrange |].
    split; [intros [x Hx]; discriminate Hx |].
    rewrite U. split; reflexivity.
Qed.

Lemma progress_sequence_witness :
  StronglySorted Z.lt
    (shownProgress (snd (fst (handleStartAnalysis 8 "2" initialPage
                                (source_of [2 ^ 52; 0; 2 ^ 53 - 1]))))) /\
  last (shownProgress (snd (fst (handleStartAnalysis 8 "2" initialPage
                                   (source_of [2 ^ 52; 0; 2 ^ 53 - 1]))))) = Some 100.
Proof.
  assert (Hn : (8 <= nominalTicks)%nat) by (vm_compute; lia).
  pose proof (progress_sequence 8 "2" initialPage
                (source_of [2 ^ 52; 0; 2 ^ 53 - 1]) Hn) as H.
  cbv zeta in H. destruct H as (_ & Hsorted & _ & Hdone & _ & _).
  split; [exact Hsorted |].
  apply Hdone. eexists. reflexivity.
Defined.

(** ** A request for a résumé that is not in the list *)

(** C6, as amended.  When the id is not in the résumé list, the call
    still enters the analyzing state with progress 0 and the interval
    runs; after the delay the lookup fails, the error is caught and
    logged on the console, and the [finally] block leaves the analyzing
    state.  Nothing is written: on every page of the run the résumé list
    (so each hasAnalysis flag and score), the stored results and the
    selection are those of the page before the request. *)
Theorem missing_resume_writes_nothing
    (n : nat) (resumeId : string) (p : Page) (src : RandomSource) :
  JS.find (fun x => String.eqb (id x) resumeId) (resumes p) = None ->
  let res := fst (handleStartAnalysis n resumeId p src) in
  (exists first rest, snd res = first :: rest /\
     isAnalyzing first = true /\ analysisProgress first = 0 /\
     console first = console p) /\
  Forall (fun q => resumes q = resumes p /\
                   analysisResults q = analysisResults p /\
                   selectedResume q = selectedResume p) (snd res) /\
  resumes (fst res) = resumes p /\
  analysisResults (fst res) = analysisResults p /\
  selectedResume (fst res) = selectedResume p /\
  console (fst res) = console p ++ ["Analysis error: Error: Resume not found"] /\
  isAnalyzing (fst res) = false /\
  analysisProgress (fst res) = 0.
Proof.
  intros Hfind res.
  pose proof (handleStartAnalysis_unfold n resumeId p src) as U.
  cbv zeta in U. fold res in U. rewrite Hfind in U.
  pose proof (ticks_begin_frame n resumeId p src) as [Flast Fall].
  cbv zeta in Flast, Fall.
  destruct Flast as (L1 & L2 & L3 & L4 & L5).
  simpl in L1, L2, L3, L4, L5.
  rewrite U. cbn [fst snd].
  split.
  { eexists _, _. split; [reflexivity |]. repeat split. }
  split.
  { constructor; [repeat split |].
    apply Forall_app. split.
    - eapply Forall_impl; [exact Fall |].
      intros q (Q1 & Q2 & _ & Q4 & _). simpl in Q1, Q2, Q4. repeat split; assumption.
    - repeat constructor; simpl; assumption. }
  simpl. rewrite L1, L2, L4, L5. repeat split.
Qed.

Lemma missing_resume_writes_nothing_witness :
  resumes (fst (fst (handleStartAnalysis 5 "404" initialPage (source_of [2 ^ 52])))) =
  resumes initialPage.
Proof.
  assert (Hfind : JS.find (fun x => String.eqb (id x) "404") (resumes initialPage) = None)
    by reflexivity.
  pose proof (missing_resume_writes_nothing 5 "404" initialPage
                (source_of [2 ^ 52]) Hfind) as H.
  cbv zeta in H. destruct H as (_ & _ & H & _). exact H.
Defined.

(** C6, as stated, fails: for the id "404", which no résumé of the
    initial page has, the call is in the analyzing state for four steps,
    with the progress advancing, before the error is logged. *)
Lemma missing_resume_counterexample :
  JS.find (fun x => String.eqb (id x) "404") (resumes initialPage) = None /\
  map (fun q => (isAnalyzing q, analysisProgress q, console q))
      (snd (fst (handleStartAnalysis 3 "404" initialPage
                   (source_of [2 ^ 52; 0; 2 ^ 53 - 1])))) =
  [ (true, 0, []); (true, 7, []); (true, 10, []); (true, 20, []);
    (false, 0, ["Analysis error: Error: Resume not found"]) ].
Proof. split; vm_compute; reflexivity. Qed.

(** ** A second request while an analysis runs *)

Lemma selectedResumeData_some (p : Page) (r : Resume) :
  selectedResumeData p = Some r ->
  In r (resumes p) /\ selectedResume p = Some (id r).
Proof.
  unfold selectedResumeData, JS.find. intros H.
  apply List.find_some in H. destruct H as [Hin Hsel].
  split; [exact Hin |].
  unfold is_selected in Hsel.
  destruct (selectedResume p) as [s |]; [| discriminate].
  apply String.eqb_eq in Hsel. congruence.
Qed.

(** C5, as amended.  The page offers the start button only for the
    selected résumé, when it has no analysis, and only while no analysis
    is running, so it issues no second request during a run.  The handler
    itself has no guard and no error for this case: called on any page,
    also one that is analyzing, it sets the analyzing flag, puts the
    progress back to 0 and starts a new interval, and logs nothing. *)
Theorem start_offered_only_when_idle (p : Page) (rid : string) :
  (reportSection p = ShowPrompt rid ->
   isAnalyzing p = false /\ selectedResume p = Some rid /\
   exists r, In r (resumes p) /\ id r = rid /\ hasAnalysis r = false) /\
  (isAnalyzing p = true -> reportSection p <> ShowPrompt rid) /\
  (let st := beginAnalysis rid p in
   isAnalyzing (fst st) = true /\ analysisProgress (fst st) = 0 /\
   progressInterval (snd st) = true /\ run_resumeId (snd st) = rid /\
   resumes (fst st) = resumes p /\
   analysisResults (fst st) = analysisResults p /\
   selectedResume (fst st) = selectedResume p /\
   console (fst st) = console p).
Proof.
  assert (Hprompt : reportSection p = ShowPrompt rid ->
            isAnalyzing p = false /\ selectedResume p = Some rid /\
            exists r, In r (resumes p) /\ id r = rid /\ hasAnalysis r = false).
  { unfold reportSection.
    destruct (selectedResumeData p) as [r |] eqn:Esel; [| discriminate].
    apply selectedResumeData_some in Esel. destruct Esel as [Hin Hsel].
    destruct (hasAnalysis r) eqn:Ehas; [discriminate |].
    destruct (isAnalyzing p) eqn:Erun; [discriminate |].
    intros H. injection H as <-.
    split; [reflexivity |]. split; [exact Hsel |].
    exists r. repeat split; assumption. }
  split; [exact Hprompt |].
  split.
  - intros Hrun Hshow. apply Hprompt in Hshow. destruct Hshow as [Hidle _].
    congruence.
  - simpl. repeat split.
Qed.

Lemma start_offered_only_when_idle_witness :
  isAnalyzing (setSelectedResume (Some "2") initialPage) = false /\
  reportSection (fst (beginAnalysis "2" (setSelectedResume (Some "2") initialPage)))
    <> ShowPrompt "2".
Proof.
  pose proof (start_offered_only_when_idle
                (setSelectedResume (Some "2") initialPage) "2") as (H1 & _ & _).
  pose proof (start_offered_only_when_idle
                (fst (beginAnalysis "2" (setSelectedResume (Some "2") initialPage)))
                "2") as (_ & H2 & _).
  split.
  - apply H1. reflexivity.
  - apply H2. reflexivity.
Defined.

(** C5, as stated, fails.  A first call for résumé "2" has started and
    its interval has fired once (progress 7); a second call for the same
    résumé puts the progress back to 0, runs to its end, stores a result
    and logs no error. *)
Lemma second_request_counterexample :
  let running := fst (tick (beginAnalysis "2" initialPage) (source_of [2 ^ 52])) in
  let second := fst (handleStartAnalysis 8 "2" (fst running) (source_of [])) in
  (isAnalyzing (fst running) = true /\ progressInterval (snd running) = true /\
   run_resumeId (snd running) = "2" /\ analysisProgress (fst running) = 7) /\
  fst (beginAnalysis "2" (fst running)) <> fst running /\
  console (fst second) = [] /\
  overall_score <$> (analysisResults (fst second) !! "2") = Some 62.
Proof.
  intros running second.
  split; [vm_compute; repeat split |].
  split.
  - intros H. apply (f_equal analysisProgress) in H. vm_compute in H. discriminate H.
  - split; vm_compute; reflexivity.
Qed.

(** ** Deleting a résumé *)

(** C8, as amended.  A confirmed deletion removes every résumé with the
    id from the list and moves the selection away from it; the stored
    results are left as they are, so a result stored under the id stays
    in [analysisResults].  A declined deletion changes nothing. *)
Theorem delete_leaves_stored_results (rid : string) (p : Page) :
  let p' := handleDeleteResume true rid p in
  resumes p' = List.filter (fun r => negb (String.eqb (id r) rid)) (resumes p) /\
  (forall r, In r (resumes p') -> id r <> rid) /\
  selectedResume p' <> Some rid /\
  analysisResults p' = analysisResults p /\
  handleDeleteResume false rid p = p.
Proof.
  intros p'.
  assert (Hres : resumes p' =
                 List.filter (fun r => negb (String.eqb (id r) rid)) (resumes p)).
  { unfold p', handleDeleteResume. destruct (is_selected p rid); reflexivity. }
  split; [exact Hres |].
  split.
  { intros r Hin. rewrite Hres in Hin. apply List.filter_In in Hin.
    destruct Hin as [_ Hne]. apply negb_true_iff, String.eqb_neq in Hne. exact Hne. }
  split.
  { unfold p', handleDeleteResume.
    destruct (is_selected p rid) eqn:Esel; simpl.
    - unfold id_or_null.
      destruct (JS.find _ (resumes p)) as [r |] eqn:Efind; [| discriminate].
      apply List.find_some in Efind. destruct Efind as [_ Hne].
      apply negb_true_iff, String.eqb_neq in Hne.
      destruct (String.eqb (id r) EmptyString); [discriminate | congruence].
    - unfold is_selected in Esel.
      destruct (selectedResume p) as [s |]; [| discriminate].
      apply String.eqb_neq in Esel. congruence. }
  split; [| reflexivity].
  unfold p', handleDeleteResume. destruct (is_selected p rid); reflexivity.
Qed.

Lemma delete_leaves_stored_results_witness :
  map id (resumes (handleDeleteResume true "1" initialPage)) = ["2"] /\
  analysisResults (handleDeleteResume true "1" initialPage) = analysisResults initialPage.
Proof.
  pose proof (delete_leaves_stored_results "1" initialPage) as H.
  cbv zeta in H. destruct H as (Hres & _ & _ & Hkeep & _).
  split; [rewrite Hres; reflexivity | exact Hkeep].
Defined.

(** C8, as stated, fails: résumé "2" is analysed and then deleted; it is
    gone from the list, and the result stored under "2" is still
    there. *)
Lemma delete_keeps_report_counterexample :
  let analysed := fst (fst (handleStartAnalysis 8 "2" initialPage (source_of []))) in
  let deleted := handleDeleteResume true "2" analysed in
  map id (resumes deleted) = ["1"] /\
  overall_score <$> (analysisResults analysed !! "2") = Some 62 /\
  overall_score <$> (analysisResults deleted !! "2") = Some 62.
Proof. repeat split; vm_compute; reflexivity. Qed.

(* ===================================================================== *)
(** * Further properties of the page *)
(* ===================================================================== *)

(** ** Scores, statuses and the summary *)

(** X1.  Each section score lies in a fixed window above or around the
    overall score; the largest is 98, so the cap at 100 never applies,
    and the smallest is 57.  The ats_friendly, keyword_match, readability
    and format scores are never below the overall score. *)
Theorem section_score_windows (resume : Resume) (src : RandomSource) :
  let a := fst (generateAnalysisResult resume src) in
  let b := overall_score a in
  let s := sections a in
  b + 8 <= sec_score (ats_friendly s) <= b + 17 /\
  b - 5 <= sec_score (impact_metrics s) <= b + 9 /\
  b + 5 <= sec_score (keyword_match s) <= b + 16 /\
  b <= sec_score (readability s) <= b + 14 /\
  b + 10 <= sec_score (format s) <= b + 17 /\
  Forall (fun x => 57 <= sec_score x <= 98)
         [ats_friendly s; impact_metrics s; keyword_match s; readability s; format s].
Proof.
  intros a b s.
  assert (Hov : b = baseOf src) by apply report_overall.
  pose proof (baseOf_range src) as Hb.
  destruct (report_sections resume src) as (H1 & H2 & H3 & H4 & H5).
  cbv zeta in H1, H2, H3, H4, H5. fold a in H1, H2, H3, H4, H5.
  fold s in H1, H2, H3, H4, H5.
  pose proof (floor_times_range (src 1%nat) 10) as J1.
  pose proof (floor_times_range (src 2%nat) 15) as J2.
  pose proof (floor_times_range (src 3%nat) 12) as J3.
  pose proof (floor_times_range (src 4%nat) 15) as J4.
  pose proof (floor_times_range (src 5%nat) 8) as J5.
  rewrite H1, H2, H3, H4, H5, Hov.
  repeat split; try lia.
  repeat constructor; lia.
Qed.

(** X2.  The sentence under the overall score agrees with the section
    statuses of a generated report: the report is called excellent only
    when all five statuses are good, and is said to need improvement only
    when impact_metrics and readability both need improvement; one of the
    three sentences is always shown, by the brackets below 65, from 65
    and from 80. *)
Theorem summary_agrees_with_statuses (resume : Resume) (src : RandomSource) :
  let a := fst (generateAnalysisResult resume src) in
  let s := sections a in
  (scoreDesc (overall_score a) = "우수한 이력서입니다! 세부 사항만 다듬으면 완벽합니다." <->
   80 <= overall_score a) /\
  (scoreDesc (overall_score a) = "개선이 필요한 이력서입니다. 아래 제안사항을 참고해주세요." <->
   overall_score a < 65) /\
  (80 <= overall_score a ->
   Forall (fun x => status x = good)
          [ats_friendly s; impact_metrics s; keyword_match s; readability s; format s]) /\
  (overall_score a < 65 ->
   status (impact_metrics s) = needs_improvement /\
   status (readability s) = needs_improvement).
Proof.
  intros a s.
  destruct (report_status resume src) as (Hats & Hkw & Hfmt & Himp & Hread).
  fold a in Hats, Hkw, Hfmt, Himp, Hread. fold s in Hats, Hkw, Hfmt, Himp, Hread.
  assert (Hov : overall_score a = baseOf src) by apply report_overall.
  rewrite <- Hov in Himp, Hread.
  unfold scoreDesc.
  destruct (Z.leb_spec 80 (overall_score a)) as [H80 | H80];
    destruct (Z.leb_spec 65 (overall_score a)) as [H65 | H65]; try lia.
  - split; [split; [lia | reflexivity] |].
    split; [split; [discriminate | lia] |].
    split; [| lia].
    intros _. repeat constructor; try assumption.
    + rewrite Himp. destruct (Z.ltb_spec 70 (overall_score a)); [reflexivity | lia].
    + rewrite Hread. destruct (Z.ltb_spec 65 (overall_score a)); [reflexivity | lia].
  - split; [split; [discriminate | lia] |].
    split; [split; [discriminate | lia] |].
    split; lia.
  - split; [split; [discriminate | lia] |].
    split; [split; [lia | reflexivity] |].
    split; [lia |].
    intros _. rewrite Himp, Hread.
    destruct (Z.ltb_spec 70 (overall_score a)); [lia |].
    destruct (Z.ltb_spec 65 (overall_score a)); [lia |].
    split; reflexivity.
Qed.

(** ** Keywords anywhere in the metadata *)

Lemma prefix_app_iff (needle s : string) :
  String.prefix needle s = true <-> exists post, s = needle +:+ post.
Proof.
  revert s. induction needle as [| c needle IH]; intros s; simpl.
  - split; [intros _; exists s; reflexivity | intros _; destruct s; reflexivity].
  - destruct s as [| c' s]; simpl.
    + split; [discriminate | intros [post H]; discriminate H].
    + destruct (Ascii.ascii_dec c c') as [<- | Hne].
      * rewrite IH. split; intros [post H]; exists post.
        -- rewrite H. reflexivity.
        -- injection H as H. exact H.
      * split; [discriminate |].
        intros [post H]. injection H as H1 _. congruence.
Qed.

(** [includes] finds exactly the strings that contain the needle. *)
Lemma includes_iff (s needle : string) :
  JS.includes s needle = true <-> exists pre post, s = pre +:+ needle +:+ post.
Proof.
  induction s as [| c s IH].
  - change (JS.includes EmptyString needle)
      with (String.prefix needle EmptyString || false).
    rewrite orb_false_r, prefix_app_iff. split.
    + intros [post H]. exists EmptyString, post. exact H.
    + intros (pre & post & H). destruct pre; [exists post; exact H |].
      discriminate H.
  - change (JS.includes (String c s) needle)
      with (String.prefix needle (String c s) || JS.includes s needle).
    rewrite orb_true_iff, prefix_app_iff, IH. split.
    + intros [[post H] | (pre & post & H)].
      * exists EmptyString, post. exact H.
      * exists (String c pre), post. simpl. rewrite H. reflexivity.
    + intros (pre & post & H). destruct pre as [| c' pre]; simpl in H.
      * left. exists post. exact H.
      * right. injection H as _ H. exists pre, post. exact H.
Qed.

Lemma toLowerCase_app (a b : string) :
  JS.toLowerCase (a +:+ b) = JS.toLowerCase a +:+ JS.toLowerCase b.
Proof. induction a as [| c a IH]; simpl; [reflexivity | rewrite IH; reflexivity]. Qed.

Lemma toLowerCase_split (s a b : string) :
  JS.toLowerCase s = a +:+ b ->
  exists a' b', s = a' +:+ b' /\ JS.toLowerCase a' = a /\ JS.toLowerCase b' = b.
Proof.
  revert s. induction a as [| c a IH]; intros s H.
  - exists EmptyString, s. repeat split. exact H.
  - destruct s as [| c' s]; [discriminate H |].
    simpl in H. injection H as Hc H.
    destruct (IH s H) as (a' & b' & -> & Ha & Hb).
    exists (String c' a'), b'. simpl. rewrite Hc, Ha. repeat split. exact Hb.
Qed.

(** A test of the page, [s.toLowerCase().includes(k)], holds exactly when
    [k] is mentioned in [s]. *)
Lemma includes_lower_mentions (s k : string) :
  JS.includes (JS.toLowerCase s) k = true <-> mentions s k.
Proof.
  rewrite includes_iff. unfold mentions. split.
  - intros (pre & post & H).
    apply toLowerCase_split in H. destruct H as (pre' & rest & -> & Hpre & H).
    apply toLowerCase_split in H. destruct H as (w & post' & -> & Hw & Hpost).
    exists pre', w, post'. split; [reflexivity | exact Hw].
  - intros (pre & w & post & -> & Hw).
    exists (JS.toLowerCase pre), (JS.toLowerCase post).
    rewrite !toLowerCase_app, Hw. reflexivity.
Qed.


(** Any target role that mentions "React" makes the résumé Frontend,
    whatever the rest of the role and the file name; "back" inside
    "Feedback" makes a résumé Backend. *)
Example react_role_is_frontend (rid fname pre post : string) :
  classify (uploaded rid fname (pre +:+ "React" +:+ post)) = Frontend.
Proof.
  unfold classify. apply categoryOf_cases.
  assert (H : JS.includes (JS.toLowerCase (pre +:+ "React" +:+ post)) "react" = true).
  { apply includes_lower_mentions. exists pre, "React", post. split; reflexivity. }
  unfold detectFlags. cbn [isFrontend uploaded targetRole filename].
  rewrite H. apply orb_true_r.
Qed.

Example feedback_role_is_backend :
  classify (uploaded "8" "cv.pdf" "Customer Feedback Manager") = Backend.
Proof. reflexivity. Qed.

(** ** What a completed analysis publishes *)

Lemma Forall2_map_same {A : Type} (R : A -> A -> Prop) (f : A -> A) (l : list A) :
  (forall x, R x (f x)) -> Forall2 R l (map f l).
Proof. intros H. induction l; simpl; constructor; auto. Qed.

(** X4.  When the résumé is found, a call of [handleStartAnalysis] with
    any number of firings ends with: the report of the first résumé with
    that id stored under the id, replacing what was stored there, and
    every other stored result kept; every listed résumé kept, in place,
    with the same id, file name and target role, those with the id now
    having an analysis and, as score, the overall score of the stored
    report; the selection and the console untouched; the analyzing state
    left. *)
Theorem analysis_publishes_result
    (n : nat) (resumeId : string) (p : Page) (src : RandomSource)
    (target : Resume) :
  JS.find (fun x => String.eqb (id x) resumeId) (resumes p) = Some target ->
  let final := fst (fst (handleStartAnalysis n resumeId p src)) in
  exists result src',
    result = fst (generateAnalysisResult target src') /\
    analysisResults final !! resumeId = Some result /\
    (forall other, other <> resumeId ->
       analysisResults final !! other = analysisResults p !! other) /\
    Forall2 (fun old new =>
               id new = id old /\ filename new = filename old /\
               targetRole new = targetRole old /\
               (id old = resumeId ->
                hasAnalysis new = true /\ score new = Some (overall_score result)) /\
               (id old <> resumeId -> new = old))
            (resumes p) (resumes final) /\
    selectedResume final = selectedResume p /\
    console final = console p /\
    isAnalyzing final = false /\
    analysisProgress final = 0.
Proof.
  intros Hfind final.
  pose proof (handleStartAnalysis_unfold n resumeId p src) as U.
  cbv zeta in U. rewrite Hfind in U.
  pose proof (ticks_begin_frame n resumeId p src) as [Flast _].
  cbv zeta in Flast. destruct Flast as (L1 & L2 & L3 & L4 & L5).
  simpl in L1, L2, L3, L4, L5.
  unfold final. rewrite U. cbn [fst].
  eexists _, _. split; [reflexivity |].
  unfold finallyBlock, publishResult, setAnalysisProgress, setIsAnalyzing,
    setResumes, setAnalysisResults. cbn.
  rewrite L1, L2, L4, L5.
  split; [apply lookup_insert_eq |].
  split; [intros other Hne; apply lookup_insert_ne; congruence |].
  split; [| repeat split].
  apply Forall2_map_same. intros x.
  destruct (String.eqb_spec (id x) resumeId) as [He | Hne]; cbn.
  - split; [reflexivity |]. split; [reflexivity |]. split; [reflexivity |].
    split; [intros _; split; reflexivity | intros C; contradiction].
  - split; [reflexivity |]. split; [reflexivity |]. split; [reflexivity |].
    split; [intros C; contradiction | intros _; reflexivity].
Qed.

Lemma analysis_publishes_result_witness :
  is_Some (analysisResults
             (fst (fst (handleStartAnalysis 8 "2" initialPage (source_of []))))
           !! "2") /\
  selectedResume (fst (fst (handleStartAnalysis 8 "2" initialPage (source_of [])))) =
  Some "1".
Proof.
  assert (Hfind : JS.find (fun x => String.eqb (id x) "2") (resumes initialPage) =
                  Some (mkResume "2" "이력서_풀스택_2024.pdf" "Full Stack Developer"
                                 None false "2024-01-05" (Some "312 KB")))
    by reflexivity.
  destruct (analysis_publishes_result 8 "2" initialPage (source_of []) _ Hfind)
    as (result & src' & _ & Hstored & _ & _ & Hsel & _).
  split; [rewrite Hstored; eexists; reflexivity | exact Hsel].
Defined.

(** X5.  Deleting the résumé while its analysis runs does not stop the
    run: the call looks the résumé up in the list of the render it was
    started from, so after the delay it still stores a report under the
    id, although no listed résumé has that id any more, and logs no
    error. *)
Theorem delete_during_run_keeps_result
    (n : nat) (resumeId : string) (p : Page) (src src2 : RandomSource)
    (target : Resume) :
  JS.find (fun x => String.eqb (id x) resumeId) (resumes p) = Some target ->
  let st := fst (fst (ticks n (beginAnalysis resumeId p) src)) in
  let deleted := handleDeleteResume true resumeId (fst st) in
  let res := fst (afterDelay (deleted, snd st) src2) in
  snd res = AwaitPause /\
  analysisResults (fst (fst res)) !! resumeId =
    Some (fst (generateAnalysisResult target src2)) /\
  (forall r, In r (resumes (fst (fst res))) -> id r <> resumeId) /\
  console (fst (fst res)) = console p.
Proof.
  intros Hfind st deleted res.
  pose proof (ticks_frame n (fst (beginAnalysis resumeId p))
                (snd (beginAnalysis resumeId p)) src) as (Fp & Fid & Fres & _).
  change (fst (beginAnalysis resumeId p), snd (beginAnalysis resumeId p))
    with (beginAnalysis resumeId p) in Fp, Fid, Fres.
  fold st in Fp, Fid, Fres. simpl in Fid, Fres.
  destruct Fp as (P1 & _ & _ & P4 & P5). simpl in P1, P4, P5.
  assert (Hdel : resumes deleted =
                 List.filter (fun r => negb (String.eqb (id r) resumeId)) (resumes p)
                 /\ analysisResults deleted = analysisResults p
                 /\ console deleted = console p).
  { unfold deleted, handleDeleteResume.
    destruct (is_selected (fst st) resumeId); simpl; rewrite P1, P4, P5; repeat split. }
  destruct Hdel as (D1 & D2 & D3).
  unfold res. clear res. clearbody deleted. clearbody st.
  destruct st as [q r]. cbn [fst snd] in *.
  unfold afterDelay. rewrite Fid, Fres, Hfind. unfold bind, ret.
  destruct (generateAnalysisResult target src2) as [result src3]. cbn [fst snd].
  split; [reflexivity |].
  unfold publishResult, setResumes, setAnalysisResults, setAnalysisProgress. cbn.
  split; [apply lookup_insert_eq |].
  split; [| exact D3].
  intros x Hin. rewrite D1 in Hin.
  apply in_map_iff in Hin. destruct Hin as (y & Hy & Hin).
  apply List.filter_In in Hin. destruct Hin as [_ Hne].
  apply negb_true_iff in Hne. rewrite Hne in Hy. subst x.
  apply String.eqb_neq. exact Hne.
Qed.

Lemma delete_during_run_keeps_result_witness :
  map id (resumes (fst (fst (fst
    (afterDelay (handleDeleteResume true "2"
                   (fst (fst (fst (ticks 3 (beginAnalysis "2" initialPage) (source_of []))))),
                 snd (fst (fst (ticks 3 (beginAnalysis "2" initialPage) (source_of [])))))
                (source_of [])))))) = ["1"] /\
  is_Some (analysisResults (fst (fst (fst
    (afterDelay (handleDeleteResume true "2"
                   (fst (fst (fst (ticks 3 (beginAnalysis "2" initialPage) (source_of []))))),
                 snd (fst (fst (ticks 3 (beginAnalysis "2" initialPage) (source_of [])))))
                (source_of []))))) !! "2").
Proof.
  assert (Hfind : JS.find (fun x => String.eqb (id x) "2") (resumes initialPage) =
                  Some (mkResume "2" "이력서_풀스택_2024.pdf" "Full Stack Developer"
                                 None false "2024-01-05" (Some "312 KB")))
    by reflexivity.
  pose proof (delete_during_run_keeps_result 3 "2" initialPage
                (source_of []) (source_of []) _ Hfind) as H.
  cbv zeta in H. destruct H as (_ & Hstored & _ & _).
  split; [vm_compute; reflexivity |].
  rewrite Hstored. eexists. reflexivity.
Defined.

(** ** The interval, whatever the number of firings *)

Lemma tick_bounded (p : Page) (r : Run) (src : RandomSource) :
  analysisProgress p <= 104 ->
  analysisProgress p <= analysisProgress (fst (fst (tick (p, r) src))) <= 104.
Proof.
  intros Hb. unfold tick.
  destruct (progressInterval r); [| simpl; lia].
  destruct (Z.leb_spec 95 (analysisProgress p)); [simpl; lia |].
  unfold bind, Math_random, ret; simpl.
  pose proof (floor_times_range (src 0%nat) 8). lia.
Qed.

Lemma ticks_bounded (n : nat) :
  forall (p : Page) (r : Run) (src : RandomSource),
    analysisProgress p <= 104 ->
    let ticked := snd (fst (ticks n (p, r) src)) in
    StronglySorted Z.le (analysisProgress p :: map analysisProgress ticked) /\
    Forall (fun q => analysisProgress q <= 104) ticked.
Proof.
  induction n as [| n IH]; intros p r src Hb.
  - simpl. split; repeat constructor.
  - rewrite ticks_succ.
    pose proof (tick_bounded p r src Hb) as T.
    destruct (tick (p, r) src) as [[p1 r1] src1].
    simpl in T.
    specialize (IH p1 r1 src1 (proj2 T)).
    destruct (ticks n (p1, r1) src1) as [[[p2 r2] hist] src2].
    simpl in IH. destruct IH as (G1 & G2). simpl.
    split.
    + constructor; [exact G1 |].
      constructor; [lia |].
      apply StronglySorted_inv in G1. destruct G1 as [_ G1].
      eapply Forall_impl; [exact G1 |]. intros x Hx. simpl in Hx. lia.
    + constructor; [lia | exact G2].
Qed.

(** X6.  However many times the interval fires during a call, the
    progress never goes down and never passes 104: below 95 a firing adds
    3 to 10, from 95 on it clears the interval and adds nothing. *)
Theorem progress_bounded_for_any_firings
    (n : nat) (resumeId : string) (p : Page) (src : RandomSource) :
  let ticked := snd (fst (ticks n (beginAnalysis resumeId p) src)) in
  StronglySorted Z.le (0 :: map analysisProgress ticked) /\
  Forall (fun q => 0 <= analysisProgress q <= 104) ticked.
Proof.
  intros ticked.
  pose proof (ticks_bounded n (fst (beginAnalysis resumeId p))
                (snd (beginAnalysis resumeId p)) src) as H.
  change (fst (beginAnalysis resumeId p), snd (beginAnalysis resumeId p))
    with (beginAnalysis resumeId p) in H.
  cbv zeta in H. fold ticked in H. simpl analysisProgress in H.
  destruct H as [Hs Hb]; [lia |].
  split; [exact Hs |].
  pose proof (StronglySorted_inv Hs) as [_ Hpos].
  apply List.Forall_forall. intros q Hq.
  pose proof (proj1 (List.Forall_forall _ _) Hpos (analysisProgress q)
                (in_map _ _ _ Hq)) as Hlo.
  pose proof (proj1 (List.Forall_forall _ _) Hb q Hq) as Hhi.
  simpl in Hlo, Hhi. lia.
Qed.

(** The bound 104 is attained: nine steps of 10, one of 4 and one of 10. *)
Example progress_bound_is_attained :
  let top := 2 ^ 53 - 1 in
  last (map analysisProgress
          (snd (fst (ticks 12 (beginAnalysis "2" initialPage)
                       (source_of [top; top; top; top; top; top; top; top; top;
                                   2 ^ 50; top])))))
  = Some 104.
Proof. vm_compute. reflexivity. Qed.

(** ** Deleting *)

Lemma delete_selection (rid : string) (p : Page) :
  is_selected (handleDeleteResume true rid p) rid = false.
Proof.
  unfold handleDeleteResume.
  destruct (is_selected p rid) eqn:Esel.
  - unfold is_selected, setSelectedResume, id_or_null. cbn.
    destruct (JS.find _ (resumes p)) as [r |] eqn:Efind; [| reflexivity].
    apply List.find_some in Efind. destruct Efind as [_ Hne].
    destruct (String.eqb (id r) EmptyString); [reflexivity |].
    apply negb_true_iff in Hne. exact Hne.
  - exact Esel.
Qed.

Lemma filter_filter_same {A : Type} (f : A -> bool) (l : list A) :
  List.filter f (List.filter f l) = List.filter f l.
Proof.
  induction l as [| x l IH]; simpl; [reflexivity |].
  destruct (f x) eqn:E; simpl; [rewrite E, IH |]; auto.
Qed.

Lemma filter_all_true {A : Type} (f : A -> bool) (l : list A) :
  (forall x, In x l -> f x = true) -> List.filter f l = l.
Proof.
  induction l as [| x l IH]; intros H; simpl; [reflexivity |].
  rewrite (H x (or_introl eq_refl)), IH; [reflexivity |].
  intros y Hy. apply H. right. exact Hy.
Qed.

(** X7.  Deleting is idempotent, and deleting an id that no listed
    résumé has and that is not selected changes nothing. *)
Theorem delete_twice_is_delete_once (rid : string) (p : Page) :
  handleDeleteResume true rid (handleDeleteResume true rid p) =
  handleDeleteResume true rid p /\
  ((forall r, In r (resumes p) -> id r <> rid) ->
   selectedResume p <> Some rid ->
   handleDeleteResume true rid p = p).
Proof.
  split.
  - pose proof (delete_selection rid p) as Hsel.
    set (q := handleDeleteResume true rid p) in *.
    assert (Hq : resumes q =
                 List.filter (fun r => negb (String.eqb (id r) rid)) (resumes p)).
    { unfold q, handleDeleteResume. destruct (is_selected p rid); reflexivity. }
    unfold handleDeleteResume at 1. rewrite Hsel.
    unfold setResumes. rewrite Hq, filter_filter_same, <- Hq.
    destruct q; reflexivity.
  - intros Hnone Hsel.
    unfold handleDeleteResume.
    assert (E : is_selected p rid = false).
    { unfold is_selected. destruct (selectedResume p) as [s |]; [| reflexivity].
      apply String.eqb_neq. congruence. }
    rewrite E. unfold setResumes.
    rewrite filter_all_true.
    + destruct p; reflexivity.
    + intros x Hx. apply negb_true_iff, String.eqb_neq. apply Hnone. exact Hx.
Qed.

Lemma delete_twice_is_delete_once_witness :
  handleDeleteResume true "404" initialPage = initialPage.
Proof.
  apply (delete_twice_is_delete_once "404" initialPage).
  - intros r [<- | [<- | []]]; discriminate.
  - discriminate.
Defined.

(** ** Invariants kept by the handlers *)

Lemma page_ok_same (p q : Page) :
  resumes q = resumes p -> selectedResume q = selectedResume p ->
  page_ok p -> page_ok q.
Proof.
  unfold page_ok, selection_listed. intros Hr Hs [H1 H2].
  rewrite Hr, Hs. split; assumption.
Qed.

Lemma page_ok_selectCard (r : Resume) (p : Page) :
  page_ok p -> In r (resumes p) -> page_ok (selectCard r p).
Proof.
  intros [H1 _] Hin. split; [exact H1 |].
  unfold selection_listed. simpl. exists r. split; [exact Hin | reflexivity].
Qed.

Lemma Forall_filter_keep {A : Type} (P : A -> Prop) (f : A -> bool) (l : list A) :
  Forall P l -> Forall P (List.filter f l).
Proof.
  intros H. apply List.Forall_forall. intros x Hx.
  apply List.filter_In in Hx. destruct Hx as [Hx _].
  exact (proj1 (List.Forall_forall _ _) H x Hx).
Qed.

Lemma page_ok_delete (confirmed : bool) (rid : string) (p : Page) :
  page_ok p -> page_ok (handleDeleteResume confirmed rid p).
Proof.
  intros [H1 H2]. unfold handleDeleteResume.
  destruct confirmed; [| split; assumption].
  destruct (is_selected p rid) eqn:Esel.
  - split; [apply Forall_filter_keep; exact H1 |].
    unfold selection_listed, id_or_null. cbn.
    destruct (JS.find _ (resumes p)) as [r |] eqn:Efind; [| exact I].
    destruct (String.eqb (id r) EmptyString); [exact I |].
    apply List.find_some in Efind. destruct Efind as [Hin Hne].
    exists r. split; [| reflexivity].
    apply List.filter_In. split; assumption.
  - split; [apply Forall_filter_keep; exact H1 |].
    unfold selection_listed in *. cbn.
    unfold is_selected in Esel.
    destruct (selectedResume p) as [s |]; [| exact I].
    destruct H2 as (r & Hin & Hid). exists r. split; [| exact Hid].
    apply List.filter_In. split; [exact Hin |].
    rewrite Hid. rewrite Esel. reflexivity.
Qed.

Lemma page_ok_upload (n : nat) (now : Z) (today : string) (p : Page) (d : Dialog) :
  page_ok p -> page_ok (fst (handleUpload n now today p d)).
Proof.
  intros [H1 H2]. unfold handleUpload.
  destruct (beginUpload d) as [d1 [u |]]; [| split; assumption].
  unfold afterUpload. destruct (uploadTicks n (d1, u)) as [d2 u2]. cbn.
  split.
  - constructor; [| exact H1]. unfold scored_iff_analysed. cbn. tauto.
  - unfold selection_listed. cbn. eexists. split; [left; reflexivity | reflexivity].
Qed.

Lemma page_ok_publish (rid : string) (result : Analysis) (p : Page) :
  page_ok p -> page_ok (publishResult rid result p).
Proof.
  intros [H1 H2]. unfold publishResult, setResumes, setAnalysisResults. split; cbn.
  - apply List.Forall_forall. intros x Hx.
    apply in_map_iff in Hx. destruct Hx as (y & <- & Hy).
    pose proof (proj1 (List.Forall_forall _ _) H1 y Hy) as Hok.
    destruct (String.eqb (id y) rid); [| exact Hok].
    unfold scored_iff_analysed. cbn. split; discriminate.
  - unfold selection_listed in *. cbn.
    destruct (selectedResume p) as [s |]; [| exact I].
    destruct H2 as (r & Hin & Hid).
    eexists. split; [apply in_map; exact Hin |].
    destruct (String.eqb (id r) rid); exact Hid.
Qed.

Lemma page_ok_analysis
    (n : nat) (resumeId : string) (p : Page) (src : RandomSource) :
  page_ok p ->
  Forall page_ok (snd (fst (handleStartAnalysis n resumeId p src))) /\
  page_ok (fst (fst (handleStartAnalysis n resumeId p src))).
Proof.
  intros Hok.
  pose proof (handleStartAnalysis_unfold n resumeId p src) as U. cbv zeta in U.
  pose proof (ticks_begin_frame n resumeId p src) as [Flast Fall].
  cbv zeta in Flast, Fall.
  destruct Flast as (L1 & L2 & _). simpl in L1, L2.
  set (p1 := fst (fst (fst (ticks n (beginAnalysis resumeId p) src)))) in *.
  assert (Hp1 : page_ok (setAnalysisProgress (fun _ => 100) p1)).
  { apply (page_ok_same p); [exact L1 | exact L2 | exact Hok]. }
  assert (Hticked : Forall page_ok (snd (fst (ticks n (beginAnalysis resumeId p) src)))).
  { eapply Forall_impl; [exact Fall |].
    intros q (Q1 & Q2 & _). simpl in Q1, Q2.
    apply (page_ok_same p); assumption. }
  assert (Hp0 : page_ok (fst (beginAnalysis resumeId p))).
  { apply (page_ok_same p); [reflexivity | reflexivity | exact Hok]. }
  rewrite U.
  destruct (JS.find (fun x => String.eqb (id x) resumeId) (resumes p)) as [t |];
    cbn [fst snd].
  - set (p3 := publishResult resumeId _ _).
    assert (Hp3 : page_ok p3) by (apply page_ok_publish; exact Hp1).
    assert (Hfin : page_ok (finallyBlock p3)).
    { apply (page_ok_same p3); [reflexivity | reflexivity | exact Hp3]. }
    split; [| exact Hfin].
    constructor; [exact Hp0 |]. apply Forall_app. split; [exact Hticked |].
    constructor; [exact Hp3 | constructor; [exact Hfin | constructor]].
  - assert (Hfin : page_ok (finallyBlock (catchBlock (setAnalysisProgress (fun _ => 100) p1)))).
    { apply (page_ok_same (setAnalysisProgress (fun _ => 100) p1));
        [reflexivity | reflexivity | exact Hp1]. }
    split; [| exact Hfin].
    constructor; [exact Hp0 |]. apply Forall_app. split; [exact Hticked |].
    constructor; [exact Hfin | constructor].
Qed.

Lemma initialPage_ok : page_ok initialPage.
Proof.
  split.
  - repeat constructor; cbn; try discriminate.
  - cbn. eexists. split; [left; reflexivity | reflexivity].
Defined.

(** X8.  Two facts hold on the first page and are kept by every handler
    (a click on a card, a deletion, confirmed or not, an upload, and every
    step of an analysis): a listed résumé has a score exactly when it has
    an analysis, and the selection is empty or is the id of a listed
    résumé. *)
Theorem page_ok_preserved (p : Page) :
  page_ok initialPage /\
  (page_ok p ->
   (forall r, In r (resumes p) -> page_ok (selectCard r p)) /\
   (forall confirmed rid, page_ok (handleDeleteResume confirmed rid p)) /\
   (forall n now today d, page_ok (fst (handleUpload n now today p d))) /\
   (forall n resumeId src,
      Forall page_ok (snd (fst (handleStartAnalysis n resumeId p src))) /\
      page_ok (fst (fst (handleStartAnalysis n resumeId p src))))).
Proof.
  split; [exact initialPage_ok |].
  intros Hok. split; [| split; [| split]].
  - intros r Hin. apply page_ok_selectCard; assumption.
  - intros c rid. apply page_ok_delete; assumption.
  - intros n now today d. apply page_ok_upload; assumption.
  - intros n rid src. apply page_ok_analysis; assumption.
Qed.

Lemma page_ok_preserved_witness :
  page_ok (handleDeleteResume true "1" initialPage) /\
  page_ok (fst (fst (handleStartAnalysis 8 "2" initialPage (source_of [2 ^ 52])))).
Proof.
  destruct (page_ok_preserved initialPage) as [Hinit Hkeep].
  destruct (Hkeep Hinit) as (_ & Hdel & _ & Hrun).
  split; [apply Hdel | apply Hrun].
Defined.

Lemma find_selected_none (p : Page) :
  selectedResume p = None -> selectedResumeData p = None.
Proof.
  intros Hs. unfold selectedResumeData, JS.find, is_selected. rewrite Hs.
  induction (resumes p) as [| r l IH]; simpl; [reflexivity | exact IH].
Qed.

Lemma find_selected_some (p : Page) (s : string) :
  selectedResume p = Some s ->
  (exists r, In r (resumes p) /\ id r = s) ->
  exists r, selectedResumeData p = Some r /\ id r = s.
Proof.
  intros Hs (r & Hin & Hid).
  unfold selectedResumeData, JS.find.
  destruct (List.find (fun r0 => is_selected p (id r0)) (resumes p)) as [r' |] eqn:E.
  - exists r'. split; [reflexivity |].
    apply List.find_some in E. destruct E as [_ E].
    unfold is_selected in E. rewrite Hs in E.
    apply String.eqb_eq in E. congruence.
  - exfalso. pose proof (List.find_none _ _ E r Hin) as Hno.
    unfold is_selected in Hno. rewrite Hs, Hid, String.eqb_refl in Hno.
    discriminate Hno.
Qed.

(** X9.  On a page that satisfies the two invariants, the report section
    shows its empty state exactly when nothing is selected, a report is
    only shown for a résumé that has a score, and every card of the list
    shows either a score or the badge "분석 필요", never both and never
    neither. *)
Theorem page_ok_rendering (p : Page) :
  page_ok p ->
  (reportSection p = ShowEmpty <-> selectedResume p = None) /\
  (reportSection p = ShowReport ->
   exists r v, selectedResumeData p = Some r /\ score r = Some v) /\
  Forall (fun r => match cardScore r with
                   | Some _ => cardPendingBadge r = false
                   | None => cardPendingBadge r = true
                   end) (resumes p).
Proof.
  intros [Hscore Hsel]. split; [| split].
  - unfold reportSection. split.
    + intros H. destruct (selectedResume p) as [s |] eqn:Es; [| reflexivity].
      exfalso. unfold selection_listed in Hsel. rewrite Es in Hsel.
      destruct (find_selected_some p s Es Hsel) as (r & Hr & _).
      rewrite Hr in H.
      destruct (hasAnalysis r), (isAnalyzing p); discriminate H.
    + intros H. rewrite (find_selected_none p H). reflexivity.
  - unfold reportSection.
    destruct (selectedResumeData p) as [r |] eqn:Er; [| discriminate].
    destruct (hasAnalysis r) eqn:Eh; [| destruct (isAnalyzing p); discriminate].
    intros _.
    apply selectedResumeData_some in Er. destruct Er as [Hin _].
    pose proof (proj1 (List.Forall_forall _ _) Hscore r Hin) as Hok.
    unfold scored_iff_analysed in Hok.
    destruct (score r) as [v |] eqn:Ev.
    + exists r, v. split; [reflexivity | exact Ev].
    + destruct Hok as [Hok _]. specialize (Hok eq_refl). congruence.
  - eapply Forall_impl; [exact Hscore |].
    intros r Hok. unfold scored_iff_analysed in Hok.
    unfold cardScore, cardPendingBadge.
    destruct (score r); [reflexivity |].
    destruct Hok as [Hok _]. rewrite (Hok eq_refl). reflexivity.
Qed.

Lemma page_ok_rendering_witness :
  reportSection initialPage <> ShowEmpty.
Proof.
  pose proof initialPage_ok as Hinit.
  destruct (page_ok_rendering initialPage Hinit) as ([Hempty _] & _ & _).
  intros H. apply Hempty in H. discriminate H.
Defined.

(** ** The report shown after an analysis *)

(** The last page of a call whose résumé is found. *)
Lemma run_found_final
    (n : nat) (resumeId : string) (p : Page) (src : RandomSource)
    (target : Resume) :
  JS.find (fun x => String.eqb (id x) resumeId) (resumes p) = Some target ->
  exists result src',
    result = fst (generateAnalysisResult target src') /\
    let final := fst (fst (handleStartAnalysis n resumeId p src)) in
    analysisResults final = <[ resumeId := result ]> (analysisResults p) /\
    resumes final =
      map (fun x => if String.eqb (id x) resumeId
                    then mkResume (id x) (filename x) (targetRole x)
                           (Some (overall_score result)) true
                           (createdAt x) (fileSize x)
                    else x) (resumes p) /\
    selectedResume final = selectedResume p /\
    isAnalyzing final = false.
Proof.
  intros Hfind.
  pose proof (handleStartAnalysis_unfold n resumeId p src) as U.
  cbv zeta in U. rewrite Hfind in U.
  pose proof (ticks_begin_frame n resumeId p src) as [Flast _].
  cbv zeta in Flast. destruct Flast as (L1 & L2 & _ & L4 & _).
  simpl in L1, L2, L4.
  eexists _, _. split; [reflexivity |].
  cbv zeta. rewrite U. cbn [fst].
  unfold finallyBlock, publishResult, setAnalysisProgress, setIsAnalyzing,
    setResumes, setAnalysisResults. cbn.
  rewrite L1, L2, L4. repeat split.
Qed.

(** X10.  After an analysis of the selected résumé (whose id is not the
    empty string), [getCurrentAnalysis] returns the report just stored,
    with three writing tips, the report section shows a report, and every
    listed résumé with that id has the overall score of that report as
    its score. *)
Theorem current_analysis_after_run
    (n : nat) (resumeId : string) (p : Page) (src : RandomSource)
    (target : Resume) :
  JS.find (fun x => String.eqb (id x) resumeId) (resumes p) = Some target ->
  selectedResume p = Some resumeId ->
  resumeId <> EmptyString ->
  let final := fst (fst (handleStartAnalysis n resumeId p src)) in
  exists result,
    getCurrentAnalysis final = Report result /\
    length (writingTips result) = 3%nat /\
    reportSection final = ShowReport /\
    Forall (fun r => id r = resumeId ->
                     hasAnalysis r = true /\ score r = Some (overall_score result))
           (resumes final).
Proof.
  intros Hfind Hsel Hne final.
  destruct (run_found_final n resumeId p src target Hfind)
    as (result & src' & Hres & Hst & Hrs & Hs & _).
  fold final in Hst, Hrs, Hs.
  assert (Hall : Forall (fun r => id r = resumeId ->
                   hasAnalysis r = true /\ score r = Some (overall_score result))
                        (resumes final)).
  { rewrite Hrs. apply List.Forall_forall. intros x Hx.
    apply in_map_iff in Hx. destruct Hx as (y & <- & _).
    destruct (String.eqb_spec (id y) resumeId) as [He | Hn]; cbn.
    - intros _. split; reflexivity.
    - intros C. contradiction. }
  exists result. split; [| split; [| split; [| exact Hall]]].
  - unfold getCurrentAnalysis. rewrite Hs, Hsel, Hst.
    apply String.eqb_neq in Hne. rewrite Hne.
    rewrite lookup_insert_eq. reflexivity.
  - rewrite Hres, report_tips_category. apply tipsOf_length.
  - assert (Hin : exists r, In r (resumes final) /\ id r = resumeId).
    { apply List.find_some in Hfind. destruct Hfind as [Hin Hid].
      apply String.eqb_eq in Hid.
      eexists. split; [rewrite Hrs; apply in_map; exact Hin |].
      cbn. destruct (String.eqb (id target) resumeId); exact Hid. }
    rewrite <- Hs in Hsel.
    destruct (find_selected_some final resumeId Hsel Hin) as (r & Hr & Hid).
    unfold reportSection. rewrite Hr.
    apply selectedResumeData_some in Hr. destruct Hr as [Hr _].
    destruct (proj1 (List.Forall_forall _ _) Hall r Hr Hid) as [Hh _].
    rewrite Hh. reflexivity.
Qed.

Lemma current_analysis_after_run_witness :
  reportSection (fst (fst (handleStartAnalysis 8 "2"
                             (setSelectedResume (Some "2") initialPage)
                             (source_of [2 ^ 52])))) = ShowReport.
Proof.
  assert (Hfind : JS.find (fun x => String.eqb (id x) "2")
                          (resumes (setSelectedResume (Some "2") initialPage)) =
                  Some (mkResume "2" "이력서_풀스택_2024.pdf" "Full Stack Developer"
                                 None false "2024-01-05" (Some "312 KB")))
    by reflexivity.
  assert (Hne : "2" <> EmptyString) by discriminate.
  destruct (current_analysis_after_run 8 "2" (setSelectedResume (Some "2") initialPage)
              (source_of [2 ^ 52]) _ Hfind eq_refl Hne)
    as (result & _ & _ & Hshow & _).
  exact Hshow.
Defined.

(** ** File sizes *)

(** [toFixed(1)] rounds to the nearest tenth, a tie going up. *)
Lemma tenths_nearest (num den : Z) :
  0 < den ->
  - den <= 2 * (10 * num - den * tenths num den) < den.
Proof.
  intros Hden. unfold tenths.
  pose proof (Z.div_mod (20 * num + den) (2 * den) ltac:(lia)) as Hdm.
  pose proof (Z.mod_pos_bound (20 * num + den) (2 * den) ltac:(lia)) as Hm.
  nia.
Qed.

(** X11.  [formatFileSize] shows sizes below 1024 in bytes, sizes below
    1024 * 1024 in KB and larger ones in MB, the last two with one
    decimal that is the nearest tenth of the quotient (a tie going up).
    The KB figure runs from 1.0 up to 1024.0: the 51 sizes from 1048525
    to 1048575 bytes are all shown as "1024.0 KB". *)
Theorem formatFileSize_units (bytes : Z) :
  (bytes < 1024 -> formatFileSize bytes = decimal bytes +:+ " B") /\
  (1024 <= bytes < 1048576 ->
   exists t, 10 <= t <= 10240 /\
             - 1024 <= 2 * (10 * bytes - 1024 * t) < 1024 /\
             formatFileSize bytes =
               (decimal (t / 10) +:+ "." +:+ decimal (t mod 10)) +:+ " KB") /\
  (1048576 <= bytes ->
   exists t, 10 <= t /\
             - 1048576 <= 2 * (10 * bytes - 1048576 * t) < 1048576 /\
             formatFileSize bytes =
               (decimal (t / 10) +:+ "." +:+ decimal (t mod 10)) +:+ " MB") /\
  (1048525 <= bytes < 1048576 -> formatFileSize bytes = "1024.0 KB").
Proof.
  unfold formatFileSize.
  split; [| split; [| split]].
  - intros H. destruct (Z.ltb_spec bytes 1024); [reflexivity | lia].
  - intros H. destruct (Z.ltb_spec bytes 1024); [lia |].
    destruct (Z.ltb_spec bytes (1024 * 1024)); [| lia].
    exists (tenths bytes 1024).
    pose proof (tenths_nearest bytes 1024 ltac:(lia)) as Hn.
    split; [lia |]. split; [exact Hn | reflexivity].
  - intros H. destruct (Z.ltb_spec bytes 1024); [lia |].
    destruct (Z.ltb_spec bytes (1024 * 1024)); [lia |].
    exists (tenths bytes (1024 * 1024)).
    pose proof (tenths_nearest bytes (1024 * 1024) ltac:(lia)) as Hn.
    split; [lia |]. split; [lia | reflexivity].
  - intros H. destruct (Z.ltb_spec bytes 1024); [lia |].
    destruct (Z.ltb_spec bytes (1024 * 1024)); [| lia].
    pose proof (tenths_nearest bytes 1024 ltac:(lia)) as Hn.
    assert (Ht : tenths bytes 1024 = 10240) by lia.
    unfold toFixed1. rewrite Ht. reflexivity.
Qed.

Lemma formatFileSize_units_witness :
  formatFileSize 1048575 = "1024.0 KB" /\ formatFileSize 1023 = "1023 B".
Proof.
  destruct (formatFileSize_units 1048575) as (_ & _ & _ & Hedge).
  destruct (formatFileSize_units 1023) as (Hb & _).
  split; [apply Hedge; lia | rewrite Hb; [reflexivity | lia]].
Defined.

(** ** The upload *)

Lemma uploadTicks_progress (n : nat) :
  forall (d : Dialog) (u : Upload),
    0 <= uploadProgress d <= 90 ->
    (uploadProgress d mod 10 = 0) ->
    (up_interval u = true \/ uploadProgress d = 90) ->
    let st := uploadTicks n (d, u) in
    uploadProgress (fst st) = Z.min (uploadProgress d + 10 * Z.of_nat n) 90 /\
    uploadState (fst st) = uploadState d /\
    selectedFile (fst st) = selectedFile d /\
    form_targetRole (fst st) = form_targetRole d /\
    alerts (fst st) = alerts d /\
    up_file (snd st) = up_file u /\
    up_targetRole (snd st) = up_targetRole u.
Proof.
  induction n as [| n IH]; intros d u Hr Hm Hlive; cbv zeta.
  - simpl. repeat split. lia.
  - cbn [uploadTicks]. unfold uploadTick at 1 2 3 4 5 6 7.
    destruct (up_interval u) eqn:Ei.
    + destruct (Z.leb_spec 90 (uploadProgress d)) as [H90 | H90].
      * assert (E90 : uploadProgress d = 90) by lia.
        specialize (IH d (mkUpload (up_file u) (up_targetRole u) false) Hr Hm
                       (or_intror E90)).
        cbv zeta in IH. destruct IH as (I1 & I2 & I3 & I4 & I5 & I6 & I7).
        rewrite I1. repeat split; try assumption. lia.
      * assert (Hstep : uploadProgress d + 10 <= 90).
        { pose proof (Z.div_mod (uploadProgress d) 10 ltac:(lia)). lia. }
        specialize (IH (setUploadProgress (fun prev => prev + 10) d) u).
        cbn [uploadProgress setUploadProgress] in IH.
        destruct IH as (I1 & I2 & I3 & I4 & I5 & I6 & I7).
        -- lia.
        -- rewrite <- Zplus_mod_idemp_l, Hm. reflexivity.
        -- left. exact Ei.
        -- rewrite I1. repeat split; try assumption. lia.
    + destruct Hlive as [C | H90]; [discriminate |].
      specialize (IH d u Hr Hm (or_intror H90)).
      cbv zeta in IH. destruct IH as (I1 & I2 & I3 & I4 & I5 & I6 & I7).
      rewrite I1. repeat split; try assumption. lia.
Qed.

(** X12.  Once an upload has started, after [n] firings of its interval
    the progress is [10 n], and 90 from the ninth firing on, however many
    follow; all this time the dialog is in the uploading state, where
    [closeModal] does nothing. *)
Theorem upload_progress_by_tens (n : nat) (d d1 : Dialog) (u : Upload) :
  beginUpload d = (d1, Some u) ->
  let running := fst (uploadTicks n (d1, u)) in
  uploadProgress running = Z.min (10 * Z.of_nat n) 90 /\
  uploadState running = st_uploading /\
  closeModal running = running.
Proof.
  intros Hbegin running.
  assert (Hd1 : uploadProgress d1 = 0 /\ uploadState d1 = st_uploading /\
                up_interval u = true).
  { unfold beginUpload in Hbegin.
    destruct (selectedFile d); [| discriminate].
    destruct (trimsToEmpty (form_targetRole d)); [discriminate |].
    injection Hbegin as <- <-. repeat split. }
  destruct Hd1 as (P0 & S0 & I0).
  pose proof (uploadTicks_progress n d1 u) as H.
  rewrite P0 in H. cbv zeta in H. fold running in H.
  destruct H as (H1 & H2 & _); [lia | reflexivity | left; exact I0 |].
  rewrite S0 in H2.
  split; [rewrite H1; f_equal; lia |].
  split; [exact H2 |].
  unfold closeModal. rewrite H2. reflexivity.
Qed.

Lemma upload_progress_by_tens_witness :
  uploadProgress
    (fst (uploadTicks 30
            (fst (beginUpload (mkDialog true st_idle 0 "Backend Developer" false
                                 (Some (mkFile "cv.pdf" 250880 "application/pdf"))
                                 false [])),
             mkUpload (mkFile "cv.pdf" 250880 "application/pdf")
                      "Backend Developer" true))) = 90.
Proof.
  assert (Hb : beginUpload (mkDialog true st_idle 0 "Backend Developer" false
                              (Some (mkFile "cv.pdf" 250880 "application/pdf"))
                              false []) =
               (fst (beginUpload (mkDialog true st_idle 0 "Backend Developer" false
                                    (Some (mkFile "cv.pdf" 250880 "application/pdf"))
                                    false [])),
                Some (mkUpload (mkFile "cv.pdf" 250880 "application/pdf")
                               "Backend Developer" true)))
    by reflexivity.
  destruct (upload_progress_by_tens 30 _ _ _ Hb) as (H & _ & _).
  rewrite H. reflexivity.
Defined.

(** The pair that a call of [handleUpload] returns once both checks have
    passed. *)
Lemma upload_done
    (n : nat) (now : Z) (today : string) (p : Page) (d : Dialog) (f : File) :
  selectedFile d = Some f ->
  trimsToEmpty (form_targetRole d) = false ->
  let fresh := mkResume (decimal now) (file_name f) (form_targetRole d)
                        None false today (Some (formatFileSize (file_size f))) in
  let res := handleUpload n now today p d in
  fst res = setSelectedResume (Some (decimal now))
              (setResumes (fun prev => fresh :: prev) p) /\
  uploadState (snd res) = st_success /\
  uploadProgress (snd res) = 100 /\
  alerts (snd res) = alerts d /\
  selectedFile (snd res) = Some f.
Proof.
  intros Hf Hrole fresh res. unfold res, handleUpload, beginUpload.
  rewrite Hf, Hrole.
  pose proof (uploadTicks_progress n
                (setUploadProgress (fun _ => 0) (setUploadState st_uploading d))
                (mkUpload f (form_targetRole d) true)) as H.
  cbv zeta in H. cbn [uploadProgress setUploadProgress] in H.
  destruct H as (_ & _ & T3 & _ & T5 & T6 & T7);
    [lia | reflexivity | left; reflexivity |].
  destruct (uploadTicks n _) as [d2 u2]. cbn [fst snd] in *.
  unfold afterUpload, newResume. cbn. rewrite T6, T7. cbn.
  repeat split; [exact T5 | rewrite T3; exact Hf].
Qed.

(** X13.  A call of [handleUpload] adds nothing and only shows an alert
    when no file is chosen or when the target role holds nothing but
    white space.  Otherwise, whatever the number of firings of its
    interval, it puts one new résumé in front of the list, unscored and
    without analysis, named after the file, with the target role as it
    was typed and the formatted size, selects it, and leaves the analysis
    state of the page alone; the dialog ends in the success state at
    100. *)
Theorem upload_outcome
    (n : nat) (now : Z) (today : string) (p : Page) (d : Dialog) :
  let res := handleUpload n now today p d in
  (selectedFile d = None -> res = (p, alert "파일을 선택해주세요." d)) /\
  (forall f, selectedFile d = Some f ->
     trimsToEmpty (form_targetRole d) = true ->
     res = (p, alert "타겟 직무를 입력해주세요." d)) /\
  (forall f, selectedFile d = Some f ->
     trimsToEmpty (form_targetRole d) = false ->
     resumes (fst res) =
       mkResume (decimal now) (file_name f) (form_targetRole d)
                None false today (Some (formatFileSize (file_size f)))
       :: resumes p /\
     selectedResume (fst res) = Some (decimal now) /\
     analysisResults (fst res) = analysisResults p /\
     isAnalyzing (fst res) = isAnalyzing p /\
     analysisProgress (fst res) = analysisProgress p /\
     uploadState (snd res) = st_success /\
     uploadProgress (snd res) = 100 /\
     alerts (snd res) = alerts d).
Proof.
  intros res. split; [| split].
  - intros Hf. unfold res, handleUpload, beginUpload. rewrite Hf. reflexivity.
  - intros f Hf Hrole. unfold res, handleUpload, beginUpload.
    rewrite Hf, Hrole. reflexivity.
  - intros f Hf Hrole.
    destruct (upload_done n now today p d f Hf Hrole) as (Hp & Hs & Hpr & Ha & _).
    fold res in Hp, Hs, Hpr, Ha. rewrite Hp. cbn.
    repeat split; assumption.
Qed.

Lemma upload_outcome_witness :
  map id (resumes (fst (handleUpload 9 1705000000000 "2024-01-11" initialPage
            (mkDialog true st_idle 0 "Backend Developer" false
               (Some (mkFile "cv.pdf" 250880 "application/pdf")) false [])))) =
  ["1705000000000"; "1"; "2"] /\
  fst (handleUpload 9 1705000000000 "2024-01-11" initialPage
         (mkDialog true st_idle 0 "   " false
            (Some (mkFile "cv.pdf" 250880 "application/pdf")) false [])) =
  initialPage.
Proof.
  split.
  - destruct (upload_outcome 9 1705000000000 "2024-01-11" initialPage
                (mkDialog true st_idle 0 "Backend Developer" false
                   (Some (mkFile "cv.pdf" 250880 "application/pdf")) false []))
      as (_ & _ & H).
    destruct (H _ eq_refl eq_refl) as (Hres & _).
    rewrite Hres. reflexivity.
  - destruct (upload_outcome 9 1705000000000 "2024-01-11" initialPage
                (mkDialog true st_idle 0 "   " false
                   (Some (mkFile "cv.pdf" 250880 "application/pdf")) false []))
      as (_ & H & _).
    rewrite (H _ eq_refl eq_refl). reflexivity.
Defined.

(** X14.  Right after an upload the new résumé is the one the page works
    on: when no analysis is running the report section offers the start
    button for its id, and an analysis started for that id stores the
    report of the new résumé, also when an older résumé has the same
    id. *)
Theorem uploaded_resume_is_analysed
    (n : nat) (now : Z) (today : string) (p : Page) (d : Dialog) (f : File) :
  selectedFile d = Some f ->
  trimsToEmpty (form_targetRole d) = false ->
  let fresh := mkResume (decimal now) (file_name f) (form_targetRole d)
                        None false today (Some (formatFileSize (file_size f))) in
  let p1 := fst (handleUpload n now today p d) in
  (isAnalyzing p = false -> reportSection p1 = ShowPrompt (decimal now)) /\
  (forall m src,
     exists src',
       analysisResults (fst (fst (handleStartAnalysis m (decimal now) p1 src)))
         !! decimal now = Some (fst (generateAnalysisResult fresh src'))).
Proof.
  intros Hf Hrole fresh p1.
  destruct (upload_done n now today p d f Hf Hrole) as (Hp & _).
  fold fresh in Hp. fold p1 in Hp.
  split.
  - intros Hidle. rewrite Hp.
    unfold reportSection, selectedResumeData, JS.find, is_selected. cbn.
    rewrite String.eqb_refl. cbn. rewrite Hidle. reflexivity.
  - intros m src.
    assert (Hfind : JS.find (fun x => String.eqb (id x) (decimal now)) (resumes p1) =
                    Some fresh).
    { rewrite Hp. unfold JS.find. cbn. rewrite String.eqb_refl. reflexivity. }
    destruct (run_found_final m (decimal now) p1 src fresh Hfind)
      as (result & src' & Hres & Hst & _).
    exists src'. rewrite Hst, <- Hres. apply lookup_insert_eq.
Qed.

Lemma uploaded_resume_is_analysed_witness :
  reportSection
    (fst (handleUpload 9 1705000000000 "2024-01-11" initialPage
            (mkDialog true st_idle 0 "Backend Developer" false
               (Some (mkFile "cv.pdf" 250880 "application/pdf")) false []))) =
  ShowPrompt "1705000000000".
Proof.
  destruct (uploaded_resume_is_analysed 9 1705000000000 "2024-01-11" initialPage
              (mkDialog true st_idle 0 "Backend Developer" false
                 (Some (mkFile "cv.pdf" 250880 "application/pdf")) false [])
              (mkFile "cv.pdf" 250880 "application/pdf") eq_refl eq_refl)
    as (H & _).
  apply H. reflexivity.
Defined.

(** X15.  The type of a file is checked on a drop only.  A dropped file
    that is neither a PDF nor a DOCX document is not taken, so with no
    file chosen before, an upload after the drop adds nothing; a file
    chosen through the file input is taken whatever its type, and an
    upload with a target role that is not blank adds it to the list. *)
Theorem file_type_checked_on_drop_only
    (n : nat) (now : Z) (today : string) (p : Page) (d : Dialog)
    (f : File) (others : list File) :
  (selectedFile d = None ->
   file_type f <> "application/pdf" ->
   file_type f <>
     "application/vnd.openxmlformats-officedocument.wordprocessingml.document" ->
   dragActive (handleDrop (f :: others) d) = false /\
   fst (handleUpload n now today p (handleDrop (f :: others) d)) = p) /\
  (trimsToEmpty (form_targetRole d) = false ->
   exists fresh,
     resumes (fst (handleUpload n now today p (handleFileSelect (f :: others) d))) =
       fresh :: resumes p /\
     filename fresh = file_name f).
Proof.
  split.
  - intros Hnone Hpdf Hdocx.
    apply String.eqb_neq in Hpdf. apply String.eqb_neq in Hdocx.
    unfold handleDrop. rewrite Hpdf, Hdocx. cbn [orb].
    split; [reflexivity |].
    unfold handleUpload, beginUpload. cbn. rewrite Hnone. reflexivity.
  - intros Hrole.
    destruct (upload_done n now today p (handleFileSelect (f :: others) d) f
                eq_refl Hrole) as (Hp & _).
    eexists. rewrite Hp. cbn. split; reflexivity.
Qed.

Lemma file_type_checked_on_drop_only_witness :
  fst (handleUpload 9 1705000000000 "2024-01-11" initialPage
         (handleDrop [mkFile "photo.png" 4096 "image/png"]
            (mkDialog true st_idle 0 "Designer" false None true []))) = initialPage /\
  map filename
    (resumes (fst (handleUpload 9 1705000000000 "2024-01-11" initialPage
                     (handleFileSelect [mkFile "photo.png" 4096 "image/png"]
                        (mkDialog true st_idle 0 "Designer" false None true []))))) =
  ["photo.png"; "이력서_프론트엔드_2024.pdf"; "이력서_풀스택_2024.pdf"].
Proof.
  destruct (file_type_checked_on_drop_only 9 1705000000000 "2024-01-11" initialPage
              (mkDialog true st_idle 0 "Designer" false None true [])
              (mkFile "photo.png" 4096 "image/png") []) as [Hdrop Hpick].
  split.
  - apply Hdrop; [reflexivity | discriminate | discriminate].
  - destruct (Hpick eq_refl) as (fresh & Hres & Hname).
    rewrite Hres. cbn. rewrite Hname. reflexivity.
Defined.

(** ** Ids made by an upload *)

Lemma decimal_not_inherited (now : Z) :
  String.eqb (decimal now) EmptyString = false /\
  existsb (String.eqb (decimal now)) objectPrototypeKeys = false.
Proof.
  unfold decimal. destruct (Z.to_int now) as [u | u]; destruct u; split; reflexivity.
Qed.

(** X16.  The id that an upload gives a résumé, the decimal digits of the
    clock, is never empty and never the name of an inherited member, so
    for such a selection [getCurrentAnalysis] returns a report: the
    stored one when there is one, [mockAnalysis] otherwise. *)
Theorem current_analysis_for_uploaded_id (now : Z) (p : Page) :
  selectedResume p = Some (decimal now) ->
  getCurrentAnalysis p =
  Report (match analysisResults p !! decimal now with
          | Some a => a
          | None => mockAnalysis
          end).
Proof.
  intros Hsel. unfold getCurrentAnalysis. rewrite Hsel.
  destruct (decimal_not_inherited now) as [He Hk]. rewrite He, Hk.
  destruct (analysisResults p !! decimal now); reflexivity.
Qed.

Lemma current_analysis_for_uploaded_id_witness :
  getCurrentAnalysis
    (fst (handleUpload 9 1705000000000 "2024-01-11" initialPage
            (mkDialog true st_idle 0 "Backend Developer" false
               (Some (mkFile "cv.pdf" 250880 "application/pdf")) false []))) =
  Report mockAnalysis.
Proof.
  rewrite (current_analysis_for_uploaded_id 1705000000000); reflexivity.
Defined.

(** ** After the delay *)

Lemma ticks_cleared (m : nat) :
  forall (p : Page) (r : Run) (src : RandomSource),
    progressInterval r = false ->
    ticks m (p, r) src = (p, r, repeat p m, src).
Proof.
  induction m as [| m IH]; intros p r src Hoff; [reflexivity |].
  rewrite ticks_succ. unfold tick at 1. rewrite Hoff. unfold ret.
  rewrite (IH p r src Hoff). reflexivity.
Qed.

(** X17.  Once the delay of a call has elapsed its interval is cleared:
    whatever the outcome of the lookup, firings that come later change
    nothing on the page and draw no random number. *)
Theorem no_progress_after_delay
    (m : nat) (st : Page * Run) (src src2 : RandomSource) :
  let after := fst (fst (afterDelay st src)) in
  ticks m after src2 = (after, repeat (fst after) m, src2).
Proof.
  intros after.
  assert (Hoff : progressInterval (snd after) = false).
  { unfold after, afterDelay. destruct st as [p r].
    destruct (JS.find _ (run_resumes r)); [| reflexivity].
    unfold bind, ret. destruct (generateAnalysisResult _ src). reflexivity. }
  destruct after as [p2 r2]. cbn [snd] in Hoff. cbn [fst].
  apply ticks_cleared. exact Hoff.
Qed.

Lemma summary_agrees_with_statuses_witness :
  status (impact_metrics (sections
    (reportOf (uploaded "1" "cv.pdf" "Designer") [2 ^ 53 - 1]))) = good.
Proof.
  pose proof (summary_agrees_with_statuses (uploaded "1" "cv.pdf" "Designer")
                (source_of [2 ^ 53 - 1])) as H.
  cbv zeta in H. destruct H as (_ & _ & Hall & _).
  assert (H80 : 80 <= overall_score (reportOf (uploaded "1" "cv.pdf" "Designer")
                                              [2 ^ 53 - 1]))
    by (vm_compute; discriminate).
  specialize (Hall H80).
  apply Forall_cons in Hall. destruct Hall as [_ Hall].
  apply Forall_cons in Hall. destruct Hall as [Himp _].
  exact Himp.
Defined.
